(** * Cassandra PV Archiver Python client: a shallow embedding

    This development embeds the request construction, the response
    triage and the configuration-command batch builder of
    [cassandra_pv_archiver/admin_client.py] and
    [cassandra_pv_archiver/archive_client.py].

    Conventions of the embedding:
    - a Python [str] is a list of Unicode code points ([list Z]); a
      [bytes] or [bytearray] is a list of integers in [0, 256);
    - a raised exception is the [Err] branch of the [result] monad;
    - Python values that reach JSON or a builder method are [pyval];
    - the network is a function from the request to the response. *)

From Stdlib Require Import ZArith String Ascii List Bool Lia.
Import ListNotations.
Open Scope Z_scope.

(** ** Python strings and bytes *)

Definition pystr := list Z.
Definition pybytes := list Z.

(** ASCII literal of the source, as code points. *)
Definition lit (s : string) : pystr :=
  map (fun a => Z.of_nat (nat_of_ascii a)) (list_ascii_of_string s).

Fixpoint pystr_eqb (a b : pystr) : bool :=
  match a, b with
  | [], [] => true
  | x :: a', y :: b' => (x =? y) && pystr_eqb a' b'
  | _, _ => false
  end.

(** ** Exceptions and the error monad *)

#[local] Set Warnings "-register-all".

Inductive pyval : Type :=
| PNone
| PBool (b : bool)
| PInt (z : Z)
| PStr (s : pystr)
| PList (l : list pyval)
| PDict (kvs : list (pyval * pyval))
| PMethod (name : pystr) (self : pyval).

Inductive exn : Type :=
| PyException (arg : pyval)      (* [raise Exception(arg)] *)
| TypeError
| NameError (name : pystr)
| AttributeError
| KeyError
| ValueError
| JSONDecodeError
| OSError
| UnicodeEncodeError
| UnicodeDecodeError.

Inductive result (A : Type) : Type :=
| Ok (a : A)
| Err (e : exn).
Arguments Ok {A} a.
Arguments Err {A} e.

Definition bind {A B} (m : result A) (k : A -> result B) : result B :=
  match m with
  | Ok a => k a
  | Err e => Err e
  end.

Notation "x <- m ;; k" := (bind m (fun x => k))
  (at level 61, m at next level, right associativity).

Fixpoint mapM {A B} (f : A -> result B) (l : list A) : result (list B) :=
  match l with
  | [] => Ok []
  | x :: t => y <- f x ;; ys <- mapM f t ;; Ok (y :: ys)
  end.

(** ** Encoding of a [str] to UTF-8 ([str.encode('utf_8')])

    The strict codec refuses lone surrogates. *)

Definition utf8_encode_cp (c : Z) : result pybytes :=
  if c <? 0 then Err UnicodeEncodeError
  else if c <? 128 then Ok [c]
  else if c <? 2048 then Ok [192 + c / 64; 128 + c mod 64]
  else if (55296 <=? c) && (c <=? 57343) then Err UnicodeEncodeError
  else if c <? 65536 then
    Ok [224 + c / 4096; 128 + (c / 64) mod 64; 128 + c mod 64]
  else if c <? 1114112 then
    Ok [240 + c / 262144; 128 + (c / 4096) mod 64;
        128 + (c / 64) mod 64; 128 + c mod 64]
  else Err UnicodeEncodeError.

Definition utf8_encode (s : pystr) : result pybytes :=
  bs <- mapM utf8_encode_cp s ;; Ok (concat bs).

(** [bytes.decode('ascii')] *)
Definition ascii_decode (bs : pybytes) : result pystr :=
  if forallb (fun b => (0 <=? b) && (b <? 128)) bs then Ok bs
  else Err UnicodeDecodeError.

(** ** [_encode_uri_part_custom] (admin_client.py) *)

Definition is_plain_byte (b : Z) : bool :=
  (b =? 45) || (b =? 95) || ((48 <=? b) && (b <=? 57))
  || ((65 <=? b) && (b <=? 90)) || ((97 <=? b) && (b <=? 122)).

Definition hex_ascii (n : Z) : Z := if n <? 10 then 48 + n else 55 + n.

(** The body of the [for b in bin_data] loop. *)
Definition encode_uri_byte (b : Z) : list Z :=
  if is_plain_byte b then [b]
  else
    let high := b / 16 in
    let low := b mod 16 in
    [126; hex_ascii high; hex_ascii low].

Definition _encode_uri_part_custom (uri_part : pystr) : result pystr :=
  bin_data <- utf8_encode uri_part ;;
  let encoded_bin_data := flat_map encode_uri_byte bin_data in
  ascii_decode encoded_bin_data.

(** The tilde-escape as the specification words it, for comparison: a
    byte of [-], [_], a digit or an ASCII letter is kept, every other byte
    is [~] followed by its two upper-case hexadecimal digits. *)
Definition hex_digits_spec : pystr := lit "0123456789ABCDEF".

Definition tilde_alphabet_spec : pystr :=
  lit "-_0123456789ABCDEFGHIJKLMNOPQRSTUVWXYZabcdefghijklmnopqrstuvwxyz".

Definition tilde_escape_byte_spec (b : Z) : pystr :=
  if existsb (Z.eqb b) tilde_alphabet_spec then [b]
  else lit "~" ++ [nth (Z.to_nat (b / 16)) hex_digits_spec 0;
                   nth (Z.to_nat (b mod 16)) hex_digits_spec 0].

Definition in_tilde_alphabet (c : Z) : bool :=
  existsb (Z.eqb c) tilde_alphabet_spec.

(** ** Python built-ins on [pyval]

    A [PDict] is a Python [dict]: its keys are pairwise distinct. A
    [PMethod] is a bound method object such as [d.items]. *)

(** [bool(v)] *)
Definition py_truthy (v : pyval) : bool :=
  match v with
  | PNone => false
  | PBool b => b
  | PInt z => negb (z =? 0)
  | PStr [] | PList [] | PDict [] => false
  | PStr _ | PList _ | PDict _ => true
  | PMethod _ _ => true
  end.

(** Decimal digits of a non-negative [int]; [fuel] bounds their number. *)
Fixpoint dec_digits (fuel : nat) (n : Z) : pystr :=
  match fuel with
  | O => []
  | S f => if n <? 10 then [48 + n] else dec_digits f (n / 10) ++ [48 + n mod 10]
  end.

(** [str(n)] for an [int] [n]. *)
Definition z_dec (n : Z) : pystr :=
  let digits m := dec_digits (Z.to_nat (Z.log2 m + 2)) m in
  if n <? 0 then 45 :: digits (- n) else digits n.

(** The code points from U+0080 up that [str.isprintable] rejects, as
    ranges [(first, last)] (Unicode 14.0, the database of Python 3.11):
    the categories Cc, Cf, Cs, Co, Cn, Zl, Zp and Zs. *)
Definition non_printable_ranges : list (Z * Z) :=
  [(128, 160); (173, 173); (888, 889); (896, 899); (907, 907); (909, 909); (930, 930);
   (1328, 1328); (1367, 1368); (1419, 1420); (1424, 1424); (1480, 1487); (1515, 1518);
   (1525, 1541); (1564, 1564); (1757, 1757); (1806, 1807); (1867, 1868); (1970, 1983);
   (2043, 2044); (2094, 2095); (2111, 2111); (2140, 2141); (2143, 2143); (2155, 2159);
   (2191, 2199); (2274, 2274); (2436, 2436); (2445, 2446); (2449, 2450); (2473, 2473);
   (2481, 2481); (2483, 2485); (2490, 2491); (2501, 2502); (2505, 2506); (2511, 2518);
   (2520, 2523); (2526, 2526); (2532, 2533); (2559, 2560); (2564, 2564); (2571, 2574);
   (2577, 2578); (2601, 2601); (2609, 2609); (2612, 2612); (2615, 2615); (2618, 2619);
   (2621, 2621); (2627, 2630); (2633, 2634); (2638, 2640); (2642, 2648); (2653, 2653);
   (2655, 2661); (2679, 2688); (2692, 2692); (2702, 2702); (2706, 2706); (2729, 2729);
   (2737, 2737); (2740, 2740); (2746, 2747); (2758, 2758); (2762, 2762); (2766, 2767);
   (2769, 2783); (2788, 2789); (2802, 2808); (2816, 2816); (2820, 2820); (2829, 2830);
   (2833, 2834); (2857, 2857); (2865, 2865); (2868, 2868); (2874, 2875); (2885, 2886);
   (2889, 2890); (2894, 2900); (2904, 2907); (2910, 2910); (2916, 2917); (2936, 2945);
   (2948, 2948); (2955, 2957); (2961, 2961); (2966, 2968); (2971, 2971); (2973, 2973);
   (2976, 2978); (2981, 2983); (2987, 2989); (3002, 3005); (3011, 3013); (3017, 3017);
   (3022, 3023); (3025, 3030); (3032, 3045); (3067, 3071); (3085, 3085); (3089, 3089);
   (3113, 3113); (3130, 3131); (3141, 3141); (3145, 3145); (3150, 3156); (3159, 3159);
   (3163, 3164); (3166, 3167); (3172, 3173); (3184, 3190); (3213, 3213); (3217, 3217);
   (3241, 3241); (3252, 3252); (3258, 3259); (3269, 3269); (3273, 3273); (3278, 3284);
   (3287, 3292); (3295, 3295); (3300, 3301); (3312, 3312); (3315, 3327); (3341, 3341);
   (3345, 3345); (3397, 3397); (3401, 3401); (3408, 3411); (3428, 3429); (3456, 3456);
   (3460, 3460); (3479, 3481); (3506, 3506); (3516, 3516); (3518, 3519); (3527, 3529);
   (3531, 3534); (3541, 3541); (3543, 3543); (3552, 3557); (3568, 3569); (3573, 3584);
   (3643, 3646); (3676, 3712); (3715, 3715); (3717, 3717); (3723, 3723); (3748, 3748);
   (3750, 3750); (3774, 3775); (3781, 3781); (3783, 3783); (3790, 3791); (3802, 3803);
   (3808, 3839); (3912, 3912); (3949, 3952); (3992, 3992); (4029, 4029); (4045, 4045);
   (4059, 4095); (4294, 4294); (4296, 4300); (4302, 4303); (4681, 4681); (4686, 4687);
   (4695, 4695); (4697, 4697); (4702, 4703); (4745, 4745); (4750, 4751); (4785, 4785);
   (4790, 4791); (4799, 4799); (4801, 4801); (4806, 4807); (4823, 4823); (4881, 4881);
   (4886, 4887); (4955, 4956); (4989, 4991); (5018, 5023); (5110, 5111); (5118, 5119);
   (5760, 5760); (5789, 5791); (5881, 5887); (5910, 5918); (5943, 5951); (5972, 5983);
   (5997, 5997); (6001, 6001); (6004, 6015); (6110, 6111); (6122, 6127); (6138, 6143);
   (6158, 6158); (6170, 6175); (6265, 6271); (6315, 6319); (6390, 6399); (6431, 6431);
   (6444, 6447); (6460, 6463); (6465, 6467); (6510, 6511); (6517, 6527); (6572, 6575);
   (6602, 6607); (6619, 6621); (6684, 6685); (6751, 6751); (6781, 6782); (6794, 6799);
   (6810, 6815); (6830, 6831); (6863, 6911); (6989, 6991); (7039, 7039); (7156, 7163);
   (7224, 7226); (7242, 7244); (7305, 7311); (7355, 7356); (7368, 7375); (7419, 7423);
   (7958, 7959); (7966, 7967); (8006, 8007); (8014, 8015); (8024, 8024); (8026, 8026);
   (8028, 8028); (8030, 8030); (8062, 8063); (8117, 8117); (8133, 8133); (8148, 8149);
   (8156, 8156); (8176, 8177); (8181, 8181); (8191, 8207); (8232, 8239); (8287, 8303);
   (8306, 8307); (8335, 8335); (8349, 8351); (8385, 8399); (8433, 8447); (8588, 8591);
   (9255, 9279); (9291, 9311); (11124, 11125); (11158, 11158); (11508, 11512);
   (11558, 11558); (11560, 11564); (11566, 11567); (11624, 11630); (11633, 11646);
   (11671, 11679); (11687, 11687); (11695, 11695); (11703, 11703); (11711, 11711);
   (11719, 11719); (11727, 11727); (11735, 11735); (11743, 11743); (11870, 11903);
   (11930, 11930); (12020, 12031); (12246, 12271); (12284, 12288); (12352, 12352);
   (12439, 12440); (12544, 12548); (12592, 12592); (12687, 12687); (12772, 12783);
   (12831, 12831); (42125, 42127); (42183, 42191); (42540, 42559); (42744, 42751);
   (42955, 42959); (42962, 42962); (42964, 42964); (42970, 42993); (43053, 43055);
   (43066, 43071); (43128, 43135); (43206, 43213); (43226, 43231); (43348, 43358);
   (43389, 43391); (43470, 43470); (43482, 43485); (43519, 43519); (43575, 43583);
   (43598, 43599); (43610, 43611); (43715, 43738); (43767, 43776); (43783, 43784);
   (43791, 43792); (43799, 43807); (43815, 43815); (43823, 43823); (43884, 43887);
   (44014, 44015); (44026, 44031); (55204, 55215); (55239, 55242); (55292, 63743);
   (64110, 64111); (64218, 64255); (64263, 64274); (64280, 64284); (64311, 64311);
   (64317, 64317); (64319, 64319); (64322, 64322); (64325, 64325); (64451, 64466);
   (64912, 64913); (64968, 64974); (64976, 65007); (65050, 65055); (65107, 65107);
   (65127, 65127); (65132, 65135); (65141, 65141); (65277, 65280); (65471, 65473);
   (65480, 65481); (65488, 65489); (65496, 65497); (65501, 65503); (65511, 65511);
   (65519, 65531); (65534, 65535); (65548, 65548); (65575, 65575); (65595, 65595);
   (65598, 65598); (65614, 65615); (65630, 65663); (65787, 65791); (65795, 65798);
   (65844, 65846); (65935, 65935); (65949, 65951); (65953, 65999); (66046, 66175);
   (66205, 66207); (66257, 66271); (66300, 66303); (66340, 66348); (66379, 66383);
   (66427, 66431); (66462, 66462); (66500, 66503); (66518, 66559); (66718, 66719);
   (66730, 66735); (66772, 66775); (66812, 66815); (66856, 66863); (66916, 66926);
   (66939, 66939); (66955, 66955); (66963, 66963); (66966, 66966); (66978, 66978);
   (66994, 66994); (67002, 67002); (67005, 67071); (67383, 67391); (67414, 67423);
   (67432, 67455); (67462, 67462); (67505, 67505); (67515, 67583); (67590, 67591);
   (67593, 67593); (67638, 67638); (67641, 67643); (67645, 67646); (67670, 67670);
   (67743, 67750); (67760, 67807); (67827, 67827); (67830, 67834); (67868, 67870);
   (67898, 67902); (67904, 67967); (68024, 68027); (68048, 68049); (68100, 68100);
   (68103, 68107); (68116, 68116); (68120, 68120); (68150, 68151); (68155, 68158);
   (68169, 68175); (68185, 68191); (68256, 68287); (68327, 68330); (68343, 68351);
   (68406, 68408); (68438, 68439); (68467, 68471); (68498, 68504); (68509, 68520);
   (68528, 68607); (68681, 68735); (68787, 68799); (68851, 68857); (68904, 68911);
   (68922, 69215); (69247, 69247); (69290, 69290); (69294, 69295); (69298, 69375);
   (69416, 69423); (69466, 69487); (69514, 69551); (69580, 69599); (69623, 69631);
   (69710, 69713); (69750, 69758); (69821, 69821); (69827, 69839); (69865, 69871);
   (69882, 69887); (69941, 69941); (69960, 69967); (70007, 70015); (70112, 70112);
   (70133, 70143); (70162, 70162); (70207, 70271); (70279, 70279); (70281, 70281);
   (70286, 70286); (70302, 70302); (70314, 70319); (70379, 70383); (70394, 70399);
   (70404, 70404); (70413, 70414); (70417, 70418); (70441, 70441); (70449, 70449);
   (70452, 70452); (70458, 70458); (70469, 70470); (70473, 70474); (70478, 70479);
   (70481, 70486); (70488, 70492); (70500, 70501); (70509, 70511); (70517, 70655);
   (70748, 70748); (70754, 70783); (70856, 70863); (70874, 71039); (71094, 71095);
   (71134, 71167); (71237, 71247); (71258, 71263); (71277, 71295); (71354, 71359);
   (71370, 71423); (71451, 71452); (71468, 71471); (71495, 71679); (71740, 71839);
   (71923, 71934); (71943, 71944); (71946, 71947); (71956, 71956); (71959, 71959);
   (71990, 71990); (71993, 71994); (72007, 72015); (72026, 72095); (72104, 72105);
   (72152, 72153); (72165, 72191); (72264, 72271); (72355, 72367); (72441, 72703);
   (72713, 72713); (72759, 72759); (72774, 72783); (72813, 72815); (72848, 72849);
   (72872, 72872); (72887, 72959); (72967, 72967); (72970, 72970); (73015, 73017);
   (73019, 73019); (73022, 73022); (73032, 73039); (73050, 73055); (73062, 73062);
   (73065, 73065); (73103, 73103); (73106, 73106); (73113, 73119); (73130, 73439);
   (73465, 73647); (73649, 73663); (73714, 73726); (74650, 74751); (74863, 74863);
   (74869, 74879); (75076, 77711); (77811, 77823); (78895, 82943); (83527, 92159);
   (92729, 92735); (92767, 92767); (92778, 92781); (92863, 92863); (92874, 92879);
   (92910, 92911); (92918, 92927); (92998, 93007); (93018, 93018); (93026, 93026);
   (93048, 93052); (93072, 93759); (93851, 93951); (94027, 94030); (94088, 94094);
   (94112, 94175); (94181, 94191); (94194, 94207); (100344, 100351); (101590, 101631);
   (101641, 110575); (110580, 110580); (110588, 110588); (110591, 110591);
   (110883, 110927); (110931, 110947); (110952, 110959); (111356, 113663);
   (113771, 113775); (113789, 113791); (113801, 113807); (113818, 113819);
   (113824, 118527); (118574, 118575); (118599, 118607); (118724, 118783);
   (119030, 119039); (119079, 119080); (119155, 119162); (119275, 119295);
   (119366, 119519); (119540, 119551); (119639, 119647); (119673, 119807);
   (119893, 119893); (119965, 119965); (119968, 119969); (119971, 119972);
   (119975, 119976); (119981, 119981); (119994, 119994); (119996, 119996);
   (120004, 120004); (120070, 120070); (120075, 120076); (120085, 120085);
   (120093, 120093); (120122, 120122); (120127, 120127); (120133, 120133);
   (120135, 120137); (120145, 120145); (120486, 120487); (120780, 120781);
   (121484, 121498); (121504, 121504); (121520, 122623); (122655, 122879);
   (122887, 122887); (122905, 122906); (122914, 122914); (122917, 122917);
   (122923, 123135); (123181, 123183); (123198, 123199); (123210, 123213);
   (123216, 123535); (123567, 123583); (123642, 123646); (123648, 124895);
   (124903, 124903); (124908, 124908); (124911, 124911); (124927, 124927);
   (125125, 125126); (125143, 125183); (125260, 125263); (125274, 125277);
   (125280, 126064); (126133, 126208); (126270, 126463); (126468, 126468);
   (126496, 126496); (126499, 126499); (126501, 126502); (126504, 126504);
   (126515, 126515); (126520, 126520); (126522, 126522); (126524, 126529);
   (126531, 126534); (126536, 126536); (126538, 126538); (126540, 126540);
   (126544, 126544); (126547, 126547); (126549, 126550); (126552, 126552);
   (126554, 126554); (126556, 126556); (126558, 126558); (126560, 126560);
   (126563, 126563); (126565, 126566); (126571, 126571); (126579, 126579);
   (126584, 126584); (126589, 126589); (126591, 126591); (126602, 126602);
   (126620, 126624); (126628, 126628); (126634, 126634); (126652, 126703);
   (126706, 126975); (127020, 127023); (127124, 127135); (127151, 127152);
   (127168, 127168); (127184, 127184); (127222, 127231); (127406, 127461);
   (127491, 127503); (127548, 127551); (127561, 127567); (127570, 127583);
   (127590, 127743); (128728, 128732); (128749, 128751); (128765, 128767);
   (128884, 128895); (128985, 128991); (129004, 129007); (129009, 129023);
   (129036, 129039); (129096, 129103); (129114, 129119); (129160, 129167);
   (129198, 129199); (129202, 129279); (129620, 129631); (129646, 129647);
   (129653, 129655); (129661, 129663); (129671, 129679); (129709, 129711);
   (129723, 129727); (129734, 129743); (129754, 129759); (129768, 129775);
   (129783, 129791); (129939, 129939); (129995, 130031); (130042, 131071);
   (173792, 173823); (177977, 177983); (178206, 178207); (183970, 183983);
   (191457, 194559); (195102, 196607); (201547, 917759); (918000, 1114111)].

Definition unicode_isprintable (c : Z) : bool :=
  negb (existsb (fun r => (fst r <=? c) && (c <=? snd r)) non_printable_ranges).

(** The hex digits of [repr], in lower case. *)
Definition hex_lower (n : Z) : Z := if n <? 10 then 48 + n else 87 + n.

(** The [n] lowest hex digits of [c], most significant first. *)
Definition hex_digits_lower (c : Z) (n : nat) : pystr :=
  map (fun i => hex_lower (Z.land (Z.shiftr c (4 * Z.of_nat i)) 15)) (rev (seq 0 n)).

(** One character of [repr(s)] written between the quote [quote]
    ([unicode_repr] of CPython). *)
Definition repr_char (quote c : Z) : pystr :=
  if (c =? quote) || (c =? 92) then [92; c]
  else if c =? 9 then [92; 116]
  else if c =? 10 then [92; 110]
  else if c =? 13 then [92; 114]
  else if (c <? 32) || (c =? 127) then 92 :: 120 :: hex_digits_lower c 2
  else if c <? 127 then [c]
  else if unicode_isprintable c then [c]
  else if c <=? 255 then 92 :: 120 :: hex_digits_lower c 2
  else if c <=? 65535 then 92 :: 117 :: hex_digits_lower c 4
  else 92 :: 85 :: hex_digits_lower c 8.

(** [repr(s)] for a [str]: single quotes, unless [s] holds a single quote
    and no double quote. *)
Definition py_repr_str (s : pystr) : pystr :=
  let quote := if existsb (Z.eqb 39) s && negb (existsb (Z.eqb 34) s) then 34 else 39 in
  [quote] ++ flat_map (repr_char quote) s ++ [quote].

(** [str(v)] (and [repr(v)] when [quoted]). *)
Fixpoint py_show (quoted : bool) (v : pyval) : pystr :=
  match v with
  | PNone => lit "None"
  | PBool true => lit "True"
  | PBool false => lit "False"
  | PInt z => z_dec z
  | PStr s => if quoted then py_repr_str s else s
  | PList l =>
      [91] ++
      (fix go (l : list pyval) : pystr :=
         match l with
         | [] => []
         | x :: t =>
             match t with
             | [] => py_show true x
             | _ => py_show true x ++ lit ", " ++ go t
             end
         end) l ++ [93]
  | PDict kvs =>
      [123] ++
      (fix go (kvs : list (pyval * pyval)) : pystr :=
         match kvs with
         | [] => []
         | (k, x) :: t =>
             let item := py_show true k ++ lit ": " ++ py_show true x in
             match t with
             | [] => item
             | _ => item ++ lit ", " ++ go t
             end
         end) kvs ++ [125]
  | PMethod name _ => lit "<bound method " ++ name ++ lit ">"
  end.

Definition py_str (v : pyval) : pystr := py_show false v.

(** [iter(v)], listing the elements a [for] loop visits. *)
Definition py_iter (v : pyval) : result (list pyval) :=
  match v with
  | PStr s => Ok (map (fun c => PStr [c]) s)
  | PList l => Ok l
  | PDict kvs => Ok (map fst kvs)
  | _ => Err TypeError
  end.

(** The attribute access [v.items] (without a call). *)
Definition py_getattr_items (v : pyval) : result pyval :=
  match v with
  | PDict _ => Ok (PMethod (lit "items") v)
  | _ => Err AttributeError
  end.

(** Unpacking [key, value = v] in a [for] target. *)
Definition unpack2 (v : pyval) : result (pyval * pyval) :=
  elems <- py_iter v ;;
  match elems with
  | [a; b] => Ok (a, b)
  | _ => Err ValueError
  end.

(** Lookup of a [str] key in a [dict]. *)
Fixpoint dict_get (kvs : list (pyval * pyval)) (k : pystr) : option pyval :=
  match kvs with
  | [] => None
  | (PStr k', v) :: t => if pystr_eqb k' k then Some v else dict_get t k
  | _ :: t => dict_get t k
  end.

Fixpoint prefixb (p s : pystr) : bool :=
  match p, s with
  | [], _ => true
  | x :: p', y :: s' => (x =? y) && prefixb p' s'
  | _, _ => false
  end.

Fixpoint infixb (p s : pystr) : bool :=
  prefixb p s || match s with [] => false | _ :: s' => infixb p s' end.

(** [k in v] for a [str] [k]. *)
Definition py_contains (k : pystr) (v : pyval) : result bool :=
  match v with
  | PDict kvs => Ok (match dict_get kvs k with Some _ => true | None => false end)
  | PList l =>
      Ok (existsb (fun x => match x with PStr s => pystr_eqb s k | _ => false end) l)
  | PStr s => Ok (infixb k s)
  | _ => Err TypeError
  end.

(** [v[k]] for a [str] [k]. *)
Definition py_getitem_str (v : pyval) (k : pystr) : result pyval :=
  match v with
  | PDict kvs => match dict_get kvs k with Some x => Ok x | None => Err KeyError end
  | _ => Err TypeError
  end.

(** [template.format(...)] for templates whose fields are [{0}] .. [{9}]. *)
Fixpoint py_format (t : pystr) (args : list pystr) : pystr :=
  match t with
  | [] => []
  | c :: t' =>
      if c =? 123 then
        match t' with
        | d :: c2 :: rest =>
            if (c2 =? 125) && (48 <=? d) && (d <=? 57)
            then nth (Z.to_nat (d - 48)) args [] ++ py_format rest args
            else c :: py_format t' args
        | _ => c :: py_format t' args
        end
      else c :: py_format t' args
  end.

(** [urllib.parse.quote(s, safe='')]: UTF-8 encoding, then every byte
    outside [A-Za-z0-9_.-~] becomes [%XX]. *)
Definition always_safe (b : Z) : bool :=
  ((65 <=? b) && (b <=? 90)) || ((97 <=? b) && (b <=? 122))
  || ((48 <=? b) && (b <=? 57)) || (b =? 95) || (b =? 46) || (b =? 45)
  || (b =? 126).

Definition quote_byte (b : Z) : pystr :=
  if always_safe b then [b] else [37; hex_ascii (b / 16); hex_ascii (b mod 16)].

Definition quote (s : pystr) : result pystr :=
  bs <- utf8_encode s ;; Ok (flat_map quote_byte bs).

(** [base64.b64encode] *)
Definition b64_char (n : Z) : Z :=
  if n <? 26 then 65 + n
  else if n <? 52 then 97 + (n - 26)
  else if n <? 62 then 48 + (n - 52)
  else if n =? 62 then 43 else 47.

Fixpoint b64encode (bs : pybytes) : pybytes :=
  match bs with
  | a :: b :: c :: rest =>
      [b64_char (Z.shiftr a 2);
       b64_char (Z.lor (Z.shiftl (Z.land a 3) 4) (Z.shiftr b 4));
       b64_char (Z.lor (Z.shiftl (Z.land b 15) 2) (Z.shiftr c 6));
       b64_char (Z.land c 63)] ++ b64encode rest
  | [a; b] =>
      [b64_char (Z.shiftr a 2);
       b64_char (Z.lor (Z.shiftl (Z.land a 3) 4) (Z.shiftr b 4));
       b64_char (Z.shiftl (Z.land b 15) 2); 61]
  | [a] => [b64_char (Z.shiftr a 2); b64_char (Z.shiftl (Z.land a 3) 4); 61; 61]
  | [] => []
  end.

(** [base64.b64decode(s, validate=True)]: on Python 3.11 this is
    [binascii.a2b_base64(s, strict_mode=True)]; a [binascii.Error] is a
    [ValueError]. [b64_index] is the table [table_a2b_base64]. *)
Definition b64_index (c : Z) : option Z :=
  if (65 <=? c) && (c <=? 90) then Some (c - 65)
  else if (97 <=? c) && (c <=? 122) then Some (c - 71)
  else if (48 <=? c) && (c <=? 57) then Some (c + 4)
  else if c =? 43 then Some 62
  else if c =? 47 then Some 63
  else None.

(** The loop of [a2b_base64] in strict mode over the remaining input, with
    the decoder state [quad_pos], [leftchar], [pads] and [padding_started];
    [goto done] returns what was written so far. *)
Fixpoint a2b_base64_loop (s : pybytes) (quad_pos leftchar pads : Z)
    (padding_started : bool) : result pybytes :=
  match s with
  | [] => if quad_pos =? 0 then Ok [] else Err ValueError
  | this_ch :: t =>
      if this_ch =? 61 then
        if 2 <=? quad_pos then
          if 4 <=? quad_pos + (pads + 1) then
            match t with [] => Ok [] | _ => Err ValueError end
          else a2b_base64_loop t quad_pos leftchar (pads + 1) true
        else a2b_base64_loop t quad_pos leftchar pads true
      else
        match b64_index this_ch with
        | None => Err ValueError
        | Some v =>
            if padding_started then Err ValueError
            else if quad_pos =? 0 then a2b_base64_loop t 1 v 0 false
            else if quad_pos =? 1 then
              rest <- a2b_base64_loop t 2 (Z.land v 15) 0 false ;;
              Ok (Z.land (Z.lor (Z.shiftl leftchar 2) (Z.shiftr v 4)) 255 :: rest)
            else if quad_pos =? 2 then
              rest <- a2b_base64_loop t 3 (Z.land v 3) 0 false ;;
              Ok (Z.land (Z.lor (Z.shiftl leftchar 4) (Z.shiftr v 2)) 255 :: rest)
            else
              rest <- a2b_base64_loop t 0 0 0 false ;;
              Ok (Z.land (Z.lor (Z.shiftl leftchar 6) v) 255 :: rest)
        end
  end.

(** Leading padding is refused before the loop starts. *)
Definition b64decode_validate (s : pybytes) : result pybytes :=
  match s with
  | c :: _ => if c =? 61 then Err ValueError else a2b_base64_loop s 0 0 0 false
  | [] => a2b_base64_loop s 0 0 0 false
  end.

(** [v.encode(encoding='ascii')] on a value read from a JSON body. *)
Definition encode_ascii (v : pyval) : result pybytes :=
  match v with
  | PStr s =>
      if forallb (fun c => (0 <=? c) && (c <? 128)) s then Ok s else Err UnicodeEncodeError
  | _ => Err AttributeError
  end.

(** ** Requests and responses

    [_do_req] sends the request; the server is a function from the
    request to the response (an [HTTPError] is returned as a response too,
    as [_do_req] does). [resp_body] is what [json.load] returns on the
    (gunzipped, charset-decoded) body, [None] when reading it raises. *)

Record request : Type := {
  req_full_url : pystr;
  req_data : option pyval;
  req_headers : list (pystr * pystr);
  req_method : pystr
}.

Record response : Type := {
  resp_code : Z;
  resp_content_type : option pystr;
  resp_body : option pyval
}.

(** Whether [json.dumps] accepts the value. *)
Fixpoint json_dumps_ok (v : pyval) : bool :=
  match v with
  | PNone | PBool _ | PInt _ | PStr _ => true
  | PList l => (fix go (l : list pyval) : bool :=
                  match l with [] => true | x :: t => json_dumps_ok x && go t end) l
  | PDict kvs =>
      (fix go (kvs : list (pyval * pyval)) : bool :=
         match kvs with
         | [] => true
         | (k, x) :: t =>
             match k with
             | PNone | PBool _ | PInt _ | PStr _ => json_dumps_ok x && go t
             | _ => false
             end
         end) kvs
  | PMethod _ _ => false
  end.

(** [_req] (identical in [AdminClient] and [ArchiveClient]; the latter
    never authenticates). *)
Definition _req (base_url auth_header : pystr) (url : pystr) (data : option pyval)
    (method : pystr) (authenticate : bool) : result request :=
  let req_url := base_url ++ url in
  req_data <- match data with
              | Some d => if json_dumps_ok d then Ok (Some d) else Err TypeError
              | None => Ok None
              end ;;
  let h0 := [(lit "Accept", lit "application/json");
             (lit "Accept-Encoding", lit "gzip")] in
  let h1 := if authenticate then h0 ++ [(lit "Authorization", auth_header)] else h0 in
  let h2 := match req_data with
            | Some _ => h1 ++ [(lit "Content-Type", lit "application/json;charset=UTF-8")]
            | None => h1
            end in
  Ok {| req_full_url := req_url; req_data := req_data;
        req_headers := h2; req_method := method |}.

(** [s.split(';')[0]] *)
Fixpoint before_semicolon (s : pystr) : pystr :=
  match s with
  | [] => []
  | c :: t => if c =? 59 then [] else c :: before_semicolon t
  end.

(** The content type returned by [_get_content_type_and_charset]; a
    missing header makes [None.split] raise. *)
Definition _get_content_type (resp : response) : result pystr :=
  match resp_content_type resp with
  | Some h => Ok (before_semicolon h)
  | None => Err AttributeError
  end.

(** [s.split(sep)] *)
Fixpoint py_split (sep : Z) (s : pystr) : list pystr :=
  match s with
  | [] => [[]]
  | c :: t =>
      if c =? sep then [] :: py_split sep t
      else match py_split sep t with
           | p :: ps => (c :: p) :: ps
           | [] => [[c]]
           end
  end.

(** [s.split(sep, 1)] *)
Fixpoint py_split_once (sep : Z) (s : pystr) : list pystr :=
  match s with
  | [] => [[]]
  | c :: t =>
      if c =? sep then [[]; t]
      else match py_split_once sep t with
           | p :: ps => (c :: p) :: ps
           | [] => [[c]]
           end
  end.

(** [d[k] = v] and [d.get(k)] on a [dict] with [str] keys. *)
Fixpoint dict_set {V} (d : list (pystr * V)) (k : pystr) (v : V) : list (pystr * V) :=
  match d with
  | [] => [(k, v)]
  | (k', v') :: t => if pystr_eqb k' k then (k', v) :: t else (k', v') :: dict_set t k v
  end.

Fixpoint dict_lookup {V} (d : list (pystr * V)) (k : pystr) : option V :=
  match d with
  | [] => None
  | (k', v) :: t => if pystr_eqb k' k then Some v else dict_lookup t k
  end.

Definition _get_content_type_and_charset (resp : response) : result (pystr * option pystr) :=
  match resp_content_type resp with
  | None => Err AttributeError
  | Some content_type_header =>
      let content_type_header := py_split 59 content_type_header in
      let content_type := hd [] content_type_header in
      let extra_args :=
        fold_left (fun extra_args extra_arg =>
                     match py_split_once 61 extra_arg with
                     | [k; v] => dict_set extra_args k (Some v)
                     | extra_arg => dict_set extra_args (hd [] extra_arg) None
                     end) (tl content_type_header) [] in
      let charset := match dict_lookup extra_args (lit "charset") with
                     | Some v => v
                     | None => None
                     end in
      Ok (content_type, charset)
  end.

Definition _get_resp_data (resp : response) : result pyval :=
  content_type <- _get_content_type resp ;;
  if pystr_eqb content_type (lit "application/json") then
    match resp_body resp with
    | Some v => Ok v
    | None => Err JSONDecodeError
    end
  else Err (PyException (PStr (py_format
         (lit "Expected content-type application/json, but got {0}.") [content_type]))).

Definition _is_success_code (status_code : Z) : bool :=
  (200 <=? status_code) && (status_code <? 300).

Definition service_unavailable : exn :=
  PyException (PStr (lit "Service currently not available")).

Definition request_failed (status_code : Z) : exn :=
  PyException (PStr (py_format (lit "Request failed with status code {0}") [z_dec status_code])).

(** The status check of the read-only operations:
    [if resp.code == SERVICE_UNAVAILABLE: raise ...;
     if not _is_success_code(resp.code): raise ...]. *)
Definition get_status_checks (resp : response) : result unit :=
  if resp_code resp =? 503 then Err service_unavailable
  else if negb (_is_success_code (resp_code resp)) then Err (request_failed (resp_code resp))
  else Ok tt.

Definition authentication_error : exn :=
  PyException (PStr (lit "Authentication error")).

Definition malformed_request_message : pyval :=
  PStr (lit "Malformed request. Check the input parameters").

(** The response handling shared word for word by
    [import_server_configuration] and [run_archive_configuration_commands],
    up to the parsed [resp_data] they go on with. *)
Definition post_response_data (resp : response) : result pyval :=
  let status_code := resp_code resp in
  let parse_body :=
    resp_data <- _get_resp_data resp ;;
    has_error <- py_contains (lit "errorMessage") resp_data ;;
    if has_error then
      error_message <- py_getitem_str resp_data (lit "errorMessage") ;;
      match error_message with
      | PNone => Ok resp_data
      | _ => Err (PyException error_message)
      end
    else Ok resp_data in
  if status_code =? 403 then Err authentication_error
  else if status_code =? 400 then
    let error_message :=
      match (resp_data <- _get_resp_data resp ;;
             has_error <- py_contains (lit "errorMessage") resp_data ;;
             if has_error then py_getitem_str resp_data (lit "errorMessage")
             else Ok PNone) with
      | Ok m => m
      | Err _ => PNone          (* the bare [except:] *)
      end in
    Err (PyException (if py_truthy error_message then error_message
                      else malformed_request_message))
  else if status_code =? 500 then parse_body
  else if status_code =? 503 then Err service_unavailable
  else if negb (_is_success_code status_code) then Err (request_failed status_code)
  else parse_body.

(** Python keyword arguments left out take their default. *)
Definition default_arg {A} (default : A) (o : option A) : A :=
  match o with Some a => a | None => default end.

(** Writing [contents] to the file at [path]. *)
Definition fs_write (fs : pystr -> option pybytes) (path : pystr) (contents : pybytes)
    : pystr -> option pybytes :=
  fun p => if pystr_eqb p path then Some contents else fs p.

(** ** [AdminClient] (admin_client.py) *)
Module AdminClient.

Record client : Type := {
  _base_url : pystr;
  _auth_header : pystr
}.

Definition _generate_auth_header (username password : pystr) : result pystr :=
  userpass <- utf8_encode (py_format (lit "{0}:{1}") [username; password]) ;;
  auth_data <- ascii_decode (b64encode userpass) ;;
  Ok (lit "Basic " ++ auth_data).

Definition __init__ (server_name : pystr) (server_port : Z)
    (username password : pystr) : result client :=
  let base_url := py_format (lit "http://{0}:{1}/admin/api/{2}")
                    [server_name; z_dec server_port; lit "1.0"] in
  auth_header <- _generate_auth_header username password ;;
  Ok {| _base_url := base_url; _auth_header := auth_header |}.

Definition get (self : client) (url : pystr) : result request :=
  _req (_base_url self) (_auth_header self) url None (lit "GET") false.

Definition get_channel (self : client) (send : request -> response)
    (channel_name : pystr) (server_id : option pystr) : result pyval :=
  channel_name <- _encode_uri_part_custom channel_name ;;
  let url := match server_id with
             | None => py_format (lit "/channels/all/by-name/{0}/") [channel_name]
             | Some sid =>
                 py_format (lit "/channels/by-server/{0}/by-name/{1}/") [sid; channel_name]
             end in
  req <- get self url ;;
  let resp := send req in
  _ <- get_status_checks resp ;;
  _get_resp_data resp.

Definition get_cluster_status (self : client) (send : request -> response) : result pyval :=
  req <- get self (lit "/cluster-status/") ;;
  let resp := send req in
  _ <- get_status_checks resp ;;
  _get_resp_data resp.

(** The source checks only for a success code here. *)
Definition get_server_status (self : client) (send : request -> response) : result pyval :=
  req <- get self (lit "/server-status/this-server/") ;;
  let resp := send req in
  if negb (_is_success_code (resp_code resp)) then Err (request_failed (resp_code resp))
  else _get_resp_data resp.

Definition list_all_channels (self : client) (send : request -> response) : result pyval :=
  req <- get self (lit "/channels/all/") ;;
  let resp := send req in
  _ <- get_status_checks resp ;;
  resp_data <- _get_resp_data resp ;;
  py_getitem_str resp_data (lit "channels").

Definition list_channels_for_server (self : client) (send : request -> response)
    (server_id : pystr) : result pyval :=
  req <- get self (py_format (lit "/channels/by-server/{0}/") [server_id]) ;;
  let resp := send req in
  _ <- get_status_checks resp ;;
  resp_data <- _get_resp_data resp ;;
  py_getitem_str resp_data (lit "channels").

(** [export_server_configuration]. [fs] is the file system and
    [writable path] tells whether [open(path, 'wb')] succeeds; the result
    pairs the return value ([None] when a path is given) with the file
    system afterwards. *)
Definition export_server_configuration (self : client) (send : request -> response)
    (fs : pystr -> option pybytes) (writable : pystr -> bool) (server_id : pystr)
    (configuration_file : option pystr)
    : result (option pybytes * (pystr -> option pybytes)) :=
  req <- get self (py_format (lit "/channels/by-server/{0}/export") [server_id]) ;;
  let resp := send req in
  _ <- get_status_checks resp ;;
  resp_data <- _get_resp_data resp ;;
  config_file <- py_getitem_str resp_data (lit "configurationFile") ;;
  config_ascii <- encode_ascii config_file ;;
  config_file_contents <- b64decode_validate config_ascii ;;
  match configuration_file with
  | None => Ok (Some config_file_contents, fs)
  | Some path =>
      if writable path then Ok (None, fs_write fs path config_file_contents)
      else Err OSError
  end.

(** The [configuration_file] argument: file contents as [bytes], or a path. *)
Inductive config_file : Type :=
| ConfigBytes (contents : pybytes)
| ConfigPath (path : pystr).

(** The request [import_server_configuration] sends; [fs] gives the
    contents of a file ([None] when [open] raises). The four flags are
    [None] when the caller leaves them at their defaults. *)
Definition import_server_configuration_req (self : client) (fs : pystr -> option pybytes)
    (server_id : pystr) (configuration_file : config_file)
    (add_channels remove_channels update_channels simulate : option bool)
    : result request :=
  let add_channels := default_arg true add_channels in
  let remove_channels := default_arg false remove_channels in
  let update_channels := default_arg true update_channels in
  let simulate := default_arg false simulate in
  let url := py_format (lit "/channels/by-server/{0}/import") [server_id] in
  config_data <- match configuration_file with
                 | ConfigBytes contents => Ok (b64encode contents)
                 | ConfigPath path =>
                     match fs path with
                     | Some contents => Ok (b64encode contents)
                     | None => Err OSError
                     end
                 end ;;
  config_text <- ascii_decode config_data ;;
  let req_data := PDict [(PStr (lit "addChannels"), PBool add_channels);
                         (PStr (lit "configurationFile"), PStr config_text);
                         (PStr (lit "removeChannels"), PBool remove_channels);
                         (PStr (lit "simulate"), PBool simulate);
                         (PStr (lit "updateChannels"), PBool update_channels)] in
  _req (_base_url self) (_auth_header self) url (Some req_data) (lit "POST") true.

Definition import_server_configuration (self : client) (fs : pystr -> option pybytes)
    (send : request -> response) (server_id : pystr) (configuration_file : config_file)
    (add_channels remove_channels update_channels simulate : option bool)
    : result pyval :=
  req <- import_server_configuration_req self fs server_id configuration_file
           add_channels remove_channels update_channels simulate ;;
  post_response_data (send req).

Definition run_archive_configuration_commands_req (self : client) (commands : pyval)
    : result request :=
  let req_data := PDict [(PStr (lit "commands"), commands)] in
  _req (_base_url self) (_auth_header self) (lit "/run-archive-configuration-commands")
    (Some req_data) (lit "POST") true.

Definition run_archive_configuration_commands (self : client) (send : request -> response)
    (commands : pyval) : result pyval :=
  req <- run_archive_configuration_commands_req self commands ;;
  resp_data <- post_response_data (send req) ;;
  py_getitem_str resp_data (lit "results").

End AdminClient.

(** ** [ArchiveClient] (archive_client.py) *)
Module ArchiveClient.

Record client : Type := {
  _base_url : pystr
}.

Definition __init__ (server_name : pystr) (server_port : Z) : client :=
  {| _base_url := py_format (lit "http://{0}:{1}/archive-access/api/{2}")
                    [server_name; z_dec server_port; lit "1.0"] |}.

Definition get (self : client) (url : pystr) : result request :=
  _req (_base_url self) [] url None (lit "GET") false.

Definition find_channels_by_pattern (self : client) (send : request -> response)
    (pattern : pystr) : result pyval :=
  quoted <- quote pattern ;;
  let req_url := py_format (lit "/archive/1/channels-by-pattern/{0}") [quoted] in
  req <- get self req_url ;;
  let resp := send req in
  _ <- get_status_checks resp ;;
  _get_resp_data resp.

(** Names bound at the top level of archive_client.py. *)
Definition module_globals : list pystr :=
  [lit "gzip"; lit "HTTPStatus"; lit "io"; lit "json"; lit "urllib";
   lit "ArchiveClient"].

Fixpoint assoc_str (l : list (pystr * pystr)) (k : pystr) : option pystr :=
  match l with
  | [] => None
  | (k', v) :: t => if pystr_eqb k' k then Some v else assoc_str t k
  end.

(** Evaluation of a name that is used as a [str] argument of [quote]:
    local scope, then module globals (none of which is a [str], so [quote]
    raises [TypeError] on them), else [NameError]. *)
Definition load_str_name (locals : list (pystr * pystr)) (name : pystr) : result pystr :=
  match assoc_str locals name with
  | Some v => Ok v
  | None => if existsb (pystr_eqb name) module_globals then Err TypeError
            else Err (NameError name)
  end.

Definition find_channels_by_regexp (self : client) (send : request -> response)
    (regular_expression : pystr) : result pyval :=
  let locals := [(lit "regular_expression", regular_expression)] in
  pattern <- load_str_name locals (lit "pattern") ;;
  quoted <- quote pattern ;;
  let req_url := py_format (lit "/archive/1/channels-by-regexp/{0}") [quoted] in
  req <- get self req_url ;;
  let resp := send req in
  _ <- get_status_checks resp ;;
  _get_resp_data resp.

(** The request path built by [get_samples]; [count] is [None] when left
    at its default [0]. *)
Definition get_samples_url (channel_name : pystr) (start_time end_time : Z)
    (count : option Z) : result pystr :=
  let count := default_arg 0 count in
  quoted <- quote channel_name ;;
  let req_url := py_format (lit "/archive/1/samples/{0}?start={1}&end={2}")
                   [quoted; z_dec start_time; z_dec end_time] in
  Ok (if count >? 0 then req_url ++ py_format (lit "&count={0}") [z_dec count]
      else req_url).

Definition get_samples (self : client) (send : request -> response) (channel_name : pystr)
    (start_time end_time : Z) (count : option Z) : result pyval :=
  req_url <- get_samples_url channel_name start_time end_time count ;;
  req <- get self req_url ;;
  let resp := send req in
  _ <- get_status_checks resp ;;
  _get_resp_data resp.

End ArchiveClient.

(** ** [ArchiveConfigurationCommands] (admin_client.py)

    The batch is the Python list the methods append to. A method returns
    the list after its [self.append(command)], or the exception raised
    while the command dict is built (the list is then unchanged). *)
Module ArchiveConfigurationCommands.

Definition key (s : string) : pyval := PStr (lit s).

Definition _make_str (obj : pyval) : pyval :=
  match obj with
  | PNone => PNone
  | _ => PStr (py_str obj)
  end.

(** [{str(key): str(value) for key, value in dict_like_obj.items}]: the
    comprehension iterates over the attribute [items] itself. *)
Definition _make_str_dict (dict_like_obj : pyval) : result pyval :=
  match dict_like_obj with
  | PNone => Ok PNone
  | _ =>
      items <- py_getattr_items dict_like_obj ;;
      elems <- py_iter items ;;
      pairs <- mapM unpack2 elems ;;
      Ok (PDict (map (fun kv => (PStr (py_str (fst kv)), PStr (py_str (snd kv)))) pairs))
  end.

Definition _make_str_list (list_like_obj : pyval) : result pyval :=
  match list_like_obj with
  | PNone => Ok PNone
  | _ =>
      elems <- py_iter list_like_obj ;;
      Ok (PList (map (fun elem => PStr (py_str elem)) elems))
  end.

Definition add_channel (self : list pyval) (channel_name control_system_type server_id
    decimation_levels decimation_level_to_retention_period enabled options : pyval)
    : result (list pyval) :=
  decimation_levels <- _make_str_list decimation_levels ;;
  retention <- _make_str_dict decimation_level_to_retention_period ;;
  options <- _make_str_dict options ;;
  let command := PDict [
    (key "channelName", _make_str channel_name);
    (key "commandType", key "add_channel");
    (key "controlSystemType", _make_str control_system_type);
    (key "decimationLevels", decimation_levels);
    (key "decimationLevelToRetentionPeriod", retention);
    (key "enabled", PBool (py_truthy enabled));
    (key "options", options);
    (key "serverId", _make_str server_id)] in
  Ok (self ++ [command]).

Definition add_or_update_channel (self : list pyval) (channel_name control_system_type
    server_id decimation_levels decimation_level_to_retention_period enabled options : pyval)
    : result (list pyval) :=
  decimation_levels <- _make_str_list decimation_levels ;;
  retention <- _make_str_dict decimation_level_to_retention_period ;;
  options <- _make_str_dict options ;;
  let command := PDict [
    (key "channelName", _make_str channel_name);
    (key "commandType", key "add_or_update_channel");
    (key "controlSystemType", _make_str control_system_type);
    (key "decimationLevels", decimation_levels);
    (key "decimationLevelToRetentionPeriod", retention);
    (key "enabled", PBool (py_truthy enabled));
    (key "options", options);
    (key "serverId", _make_str server_id)] in
  Ok (self ++ [command]).

Definition move_channel (self : list pyval) (channel_name new_server_id
    expected_old_server_id : pyval) : result (list pyval) :=
  let command := PDict [
    (key "channelName", _make_str channel_name);
    (key "commandType", key "move_channel");
    (key "expectedOldServerId", _make_str expected_old_server_id);
    (key "newServerId", _make_str new_server_id)] in
  Ok (self ++ [command]).

Definition refresh_channel (self : list pyval) (channel_name server_id : pyval)
    : result (list pyval) :=
  let command := PDict [
    (key "channelName", _make_str channel_name);
    (key "commandType", key "refresh_channel");
    (key "serverId", _make_str server_id)] in
  Ok (self ++ [command]).

Definition remove_channel (self : list pyval) (channel_name expected_server_id : pyval)
    : result (list pyval) :=
  let command := PDict [
    (key "channelName", _make_str channel_name);
    (key "commandType", key "remove_channel");
    (key "expectedServerId", _make_str expected_server_id)] in
  Ok (self ++ [command]).

Definition rename_channel (self : list pyval) (new_channel_name old_channel_name
    expected_server_id : pyval) : result (list pyval) :=
  let command := PDict [
    (key "commandType", key "rename_channel");
    (key "expectedServerId", _make_str expected_server_id);
    (key "newChannelName", _make_str new_channel_name);
    (key "oldChannelName", _make_str old_channel_name)] in
  Ok (self ++ [command]).

Definition update_channel (self : list pyval) (channel_name add_decimation_levels
    add_options decimation_levels decimation_level_to_retention_period enabled
    expected_control_system_type expected_server_id options remove_decimation_levels
    remove_options : pyval) : result (list pyval) :=
  add_decimation_levels <- _make_str_list add_decimation_levels ;;
  add_options <- _make_str_dict add_options ;;
  decimation_levels <- _make_str_list decimation_levels ;;
  retention <- _make_str_dict decimation_level_to_retention_period ;;
  options <- _make_str_dict options ;;
  remove_decimation_levels <- _make_str_list remove_decimation_levels ;;
  remove_options <- _make_str_list remove_options ;;
  let command := PDict [
    (key "addDecimationLevels", add_decimation_levels);
    (key "addOptions", add_options);
    (key "channelName", _make_str channel_name);
    (key "commandType", key "update_channel");
    (key "decimationLevels", decimation_levels);
    (key "decimationLevelToRetentionPeriod", retention);
    (key "enabled", match enabled with
                    | PNone => PNone
                    | _ => PBool (py_truthy enabled)
                    end);
    (key "expectedControlSystemType", _make_str expected_control_system_type);
    (key "expectedServerId", _make_str expected_server_id);
    (key "options", options);
    (key "removeDecimationLevels", remove_decimation_levels);
    (key "removeOptions", remove_options)] in
  Ok (self ++ [command]).

(** A call of one of the seven builder methods, with its arguments. *)
Inductive builder_call : Type :=
| AddChannel (channel_name control_system_type server_id decimation_levels
                decimation_level_to_retention_period enabled options : pyval)
| AddOrUpdateChannel (channel_name control_system_type server_id decimation_levels
                        decimation_level_to_retention_period enabled options : pyval)
| MoveChannel (channel_name new_server_id expected_old_server_id : pyval)
| RefreshChannel (channel_name server_id : pyval)
| RemoveChannel (channel_name expected_server_id : pyval)
| RenameChannel (new_channel_name old_channel_name expected_server_id : pyval)
| UpdateChannel (channel_name add_decimation_levels add_options decimation_levels
                   decimation_level_to_retention_period enabled
                   expected_control_system_type expected_server_id options
                   remove_decimation_levels remove_options : pyval).

Definition run_call (self : list pyval) (c : builder_call) : result (list pyval) :=
  match c with
  | AddChannel a b c d e f g => add_channel self a b c d e f g
  | AddOrUpdateChannel a b c d e f g => add_or_update_channel self a b c d e f g
  | MoveChannel a b c => move_channel self a b c
  | RefreshChannel a b => refresh_channel self a b
  | RemoveChannel a b => remove_channel self a b
  | RenameChannel a b c => rename_channel self a b c
  | UpdateChannel a b c d e f g h i j k => update_channel self a b c d e f g h i j k
  end.

(** The parameters of each method that default to [None], each with the
    key of the command field it fills and the argument given for it
    ([enabled] of the two add methods defaults to [True] and is not
    listed). *)
Definition optional_fields (c : builder_call) : list (string * pyval) :=
  match c with
  | AddChannel _ _ _ dl dlr _ o | AddOrUpdateChannel _ _ _ dl dlr _ o =>
      [("decimationLevels", dl); ("decimationLevelToRetentionPeriod", dlr); ("options", o)]
  | MoveChannel _ _ eosid => [("expectedOldServerId", eosid)]
  | RefreshChannel _ _ => []
  | RemoveChannel _ esid => [("expectedServerId", esid)]
  | RenameChannel _ _ esid => [("expectedServerId", esid)]
  | UpdateChannel _ adl ao dl dlr en ecst esid o rdl ro =>
      [("addDecimationLevels", adl); ("addOptions", ao); ("decimationLevels", dl);
       ("decimationLevelToRetentionPeriod", dlr); ("enabled", en);
       ("expectedControlSystemType", ecst); ("expectedServerId", esid); ("options", o);
       ("removeDecimationLevels", rdl); ("removeOptions", ro)]
  end%string.

(** The keys of the command each method appends, as listed in its dict
    literal. *)
Definition command_keys (c : builder_call) : list string :=
  match c with
  | AddChannel _ _ _ _ _ _ _ | AddOrUpdateChannel _ _ _ _ _ _ _ =>
      ["channelName"; "commandType"; "controlSystemType"; "decimationLevels";
       "decimationLevelToRetentionPeriod"; "enabled"; "options"; "serverId"]
  | MoveChannel _ _ _ =>
      ["channelName"; "commandType"; "expectedOldServerId"; "newServerId"]
  | RefreshChannel _ _ => ["channelName"; "commandType"; "serverId"]
  | RemoveChannel _ _ => ["channelName"; "commandType"; "expectedServerId"]
  | RenameChannel _ _ _ =>
      ["commandType"; "expectedServerId"; "newChannelName"; "oldChannelName"]
  | UpdateChannel _ _ _ _ _ _ _ _ _ _ _ =>
      ["addDecimationLevels"; "addOptions"; "channelName"; "commandType";
       "decimationLevels"; "decimationLevelToRetentionPeriod"; "enabled";
       "expectedControlSystemType"; "expectedServerId"; "options";
       "removeDecimationLevels"; "removeOptions"]
  end%string.

(** The keys of a command dict. *)
Definition dict_keys (v : pyval) : option (list pyval) :=
  match v with
  | PDict kvs => Some (map fst kvs)
  | _ => None
  end.

(** The value stored under [k] in a command dict. *)
Definition command_field (command : pyval) (k : string) : option pyval :=
  match command with
  | PDict kvs => dict_get kvs (lit k)
  | _ => None
  end.

(** Successive calls on one batch, [commands.m1(...); commands.m2(...)],
    as a caller makes them; the first call that raises ends the sequence. *)
Fixpoint run_calls (self : list pyval) (cs : list builder_call) : result (list pyval) :=
  match cs with
  | [] => Ok self
  | c :: t => self' <- run_call self c ;; run_calls self' t
  end.

End ArchiveConfigurationCommands.

(** The failure outcomes of a POST operation whose result is [res] when
    the server answered [resp]: 403, 400 (with its three ways of reading
    the body) and the status codes that are not special-cased. *)
Definition post_failure_outcomes (res : result pyval) (resp : response) : Prop :=
  (resp_code resp = 403 -> res = Err authentication_error)
  /\ (resp_code resp = 400 ->
      (forall kvs m, _get_resp_data resp = Ok (PDict kvs) ->
                     dict_get kvs (lit "errorMessage") = Some m -> py_truthy m = true ->
                     res = Err (PyException m))
      /\ (forall kvs m, _get_resp_data resp = Ok (PDict kvs) ->
                        dict_get kvs (lit "errorMessage") = Some m -> py_truthy m = false ->
                        res = Err (PyException malformed_request_message))
      /\ (forall kvs, _get_resp_data resp = Ok (PDict kvs) ->
                      dict_get kvs (lit "errorMessage") = None ->
                      res = Err (PyException malformed_request_message))
      /\ (forall v, _get_resp_data resp = Ok v -> (forall kvs, v <> PDict kvs) ->
                    res = Err (PyException malformed_request_message))
      /\ (forall e, _get_resp_data resp = Err e ->
                    res = Err (PyException malformed_request_message)))
  /\ (forall n, resp_code resp = n -> _is_success_code n = false ->
                n <> 400 -> n <> 403 -> n <> 500 -> n <> 503 ->
                res = Err (request_failed n)).

(** The outcomes of a read-only operation whose result is [res] when the
    server answered [resp]: 503, the other status codes that are not 2xx,
    and a 2xx answer whose content type is not JSON or is missing. *)
Definition read_outcomes {A} (res : result A) (resp : response) : Prop :=
  (resp_code resp = 503 -> res = Err service_unavailable)
  /\ (forall n, resp_code resp = n -> n <> 503 -> _is_success_code n = false ->
                res = Err (request_failed n))
  /\ (forall h, _is_success_code (resp_code resp) = true ->
                resp_content_type resp = Some h ->
                pystr_eqb (before_semicolon h) (lit "application/json") = false ->
                res = Err (PyException (PStr (lit "Expected content-type application/json, but got "
                                               ++ before_semicolon h ++ lit "."))))
  /\ (_is_success_code (resp_code resp) = true -> resp_content_type resp = None ->
      res = Err AttributeError).

(** ** Concrete clients and servers used by the examples *)

Definition sample_admin : AdminClient.client :=
  {| AdminClient._base_url := lit "http://localhost:4812/admin/api/1.0";
     AdminClient._auth_header := lit "Basic YWRtaW46" |}.

Definition sample_archive : ArchiveClient.client :=
  ArchiveClient.__init__ (lit "localhost") 9812.

Definition sample_fs (path : pystr) : option pybytes :=
  if pystr_eqb path (lit "server.xml") then Some (lit "<server-configuration/>") else None.

Definition json_response (code : Z) (body : pyval) : response :=
  {| resp_code := code;
     resp_content_type := Some (lit "application/json;charset=UTF-8");
     resp_body := Some body |}.

Definition answer (resp : response) : request -> response := fun _ => resp.


(** ** General facts about the embedding *)

Example tilde_space : _encode_uri_part_custom [32] = Ok (lit "~20").
Proof. reflexivity. Qed.
Example tilde_e_acute : _encode_uri_part_custom [233] = Ok (lit "~C3~A9").
Proof. reflexivity. Qed.

Lemma pystr_eqb_eq (a b : pystr) : pystr_eqb a b = true <-> a = b.
Proof.
  revert b; induction a as [|x a IH]; intros [|y b]; simpl;
    try (split; congruence).
  rewrite andb_true_iff, Z.eqb_eq, IH. split.
  - intros [-> ->]; reflexivity.
  - intros H; inversion H; auto.
Qed.

Lemma mapM_ok {A B} (f : A -> result B) (l : list A) (ys : list B) :
  mapM f l = Ok ys -> Forall2 (fun x y => f x = Ok y) l ys.
Proof.
  revert ys; induction l as [|x t IH]; intros ys H; simpl in H.
  - inversion H; constructor.
  - destruct (f x) as [y|e] eqn:Hf; [|discriminate]; simpl in H.
    destruct (mapM f t) as [ys'|e] eqn:Ht; [|discriminate]; simpl in H.
    inversion H; subst. constructor; auto.
Qed.

Lemma ok_inj {A} (a b : A) : @Ok A a = Ok b -> a = b.
Proof. congruence. Qed.

Definition byte_range (b : Z) : Prop := 0 <= b < 256.

Lemma utf8_encode_cp_range (c : Z) (bs : pybytes) :
  utf8_encode_cp c = Ok bs -> Forall byte_range bs.
Proof.
  unfold utf8_encode_cp, byte_range.
  destruct (c <? 0) eqn:H0; [discriminate|].
  destruct (c <? 128) eqn:H1.
  { intros H; apply ok_inj in H; subst bs. apply Z.ltb_ge in H0. apply Z.ltb_lt in H1.
    repeat (apply Forall_cons; [lia|]); apply Forall_nil. }
  destruct (c <? 2048) eqn:H2.
  { intros H; apply ok_inj in H; subst bs.
    apply Z.ltb_ge in H0, H1. apply Z.ltb_lt in H2.
    assert (0 <= c / 64 < 32) by (split; [apply Z.div_pos|apply Z.div_lt_upper_bound]; lia).
    pose proof (Z.mod_pos_bound c 64 ltac:(lia)).
    repeat (apply Forall_cons; [lia|]); apply Forall_nil. }
  destruct ((55296 <=? c) && (c <=? 57343)); [discriminate|].
  destruct (c <? 65536) eqn:H3.
  { intros H; apply ok_inj in H; subst bs.
    apply Z.ltb_ge in H0, H1, H2. apply Z.ltb_lt in H3.
    assert (0 <= c / 4096 < 16) by (split; [apply Z.div_pos|apply Z.div_lt_upper_bound]; lia).
    pose proof (Z.mod_pos_bound c 64 ltac:(lia)).
    pose proof (Z.mod_pos_bound (c / 64) 64 ltac:(lia)).
    repeat (apply Forall_cons; [lia|]); apply Forall_nil. }
  destruct (c <? 1114112) eqn:H4; [|discriminate].
  intros H; apply ok_inj in H; subst bs.
  apply Z.ltb_ge in H0, H1, H2, H3. apply Z.ltb_lt in H4.
  assert (0 <= c / 262144 < 5) by (split; [apply Z.div_pos|apply Z.div_lt_upper_bound]; lia).
  pose proof (Z.mod_pos_bound c 64 ltac:(lia)).
  pose proof (Z.mod_pos_bound (c / 64) 64 ltac:(lia)).
  pose proof (Z.mod_pos_bound (c / 4096) 64 ltac:(lia)).
  repeat (apply Forall_cons; [lia|]); apply Forall_nil.
Qed.

Lemma utf8_encode_range (s : pystr) (bs : pybytes) :
  utf8_encode s = Ok bs -> Forall byte_range bs.
Proof.
  unfold utf8_encode. destruct (mapM utf8_encode_cp s) as [bss|e] eqn:H;
    simpl; [|discriminate].
  intros E; inversion E; subst. apply mapM_ok in H.
  induction H as [|c b s' bss' Hc _ IH]; simpl; [constructor|].
  apply Forall_app; split; auto. eapply utf8_encode_cp_range; eauto.
Qed.

(** A property of every byte, decided by running through all 256. *)
Lemma all_bytes (P : Z -> Prop) (p : Z -> bool) :
  (forall b, p b = true -> P b) ->
  forallb (fun n => p (Z.of_nat n)) (seq 0 256) = true ->
  forall b, byte_range b -> P b.
Proof.
  intros Hp Hall b Hb. apply Hp.
  rewrite forallb_forall in Hall.
  replace b with (Z.of_nat (Z.to_nat b)) by (unfold byte_range in Hb; lia).
  apply Hall, in_seq. unfold byte_range in Hb; lia.
Qed.

Lemma encode_uri_byte_agrees (b : Z) :
  byte_range b -> encode_uri_byte b = tilde_escape_byte_spec b.
Proof.
  revert b.
  apply (all_bytes (fun b => encode_uri_byte b = tilde_escape_byte_spec b)
           (fun b => pystr_eqb (encode_uri_byte b) (tilde_escape_byte_spec b))).
  - intros x H; apply pystr_eqb_eq; exact H.
  - vm_compute; reflexivity.
Qed.

Lemma encode_uri_byte_ascii (b : Z) :
  byte_range b ->
  forallb (fun c => (0 <=? c) && (c <? 128)) (encode_uri_byte b) = true.
Proof.
  revert b.
  apply (all_bytes (fun b => forallb (fun c => (0 <=? c) && (c <? 128)) (encode_uri_byte b) = true)
           (fun b => forallb (fun c => (0 <=? c) && (c <? 128)) (encode_uri_byte b))).
  - auto.
  - vm_compute; reflexivity.
Qed.

Lemma ascii_decode_flat_map (bs : pybytes) :
  Forall byte_range bs ->
  ascii_decode (flat_map encode_uri_byte bs) = Ok (flat_map encode_uri_byte bs).
Proof.
  intros H. unfold ascii_decode.
  replace (forallb _ _) with true; [reflexivity|]. symmetry.
  induction H as [|b bs Hb _ IH]; [reflexivity|].
  simpl. rewrite forallb_app, IH, encode_uri_byte_ascii by exact Hb.
  reflexivity.
Qed.

Lemma flat_map_encode_uri_byte (bs : pybytes) :
  Forall byte_range bs ->
  flat_map encode_uri_byte bs = flat_map tilde_escape_byte_spec bs.
Proof.
  induction 1 as [|b bs Hb _ IH]; [reflexivity|].
  simpl. rewrite encode_uri_byte_agrees by exact Hb. rewrite IH. reflexivity.
Qed.

Lemma in_tilde_alphabet_ascii (c : Z) :
  in_tilde_alphabet c = true -> 0 <= c < 128.
Proof.
  unfold in_tilde_alphabet. intros H.
  apply existsb_exists in H as [x [Hin Hx]]. apply Z.eqb_eq in Hx; subst x.
  assert (Hall : forallb (fun x => (0 <=? x) && (x <? 128)) tilde_alphabet_spec = true)
    by (vm_compute; reflexivity).
  rewrite forallb_forall in Hall. specialize (Hall c Hin).
  apply andb_true_iff in Hall as [H1 H2]. apply Z.leb_le in H1. apply Z.ltb_lt in H2.
  lia.
Qed.

Lemma utf8_encode_ascii (s : pystr) :
  forallb (fun c => (0 <=? c) && (c <? 128)) s = true -> utf8_encode s = Ok s.
Proof.
  unfold utf8_encode. induction s as [|c s IH]; [reflexivity|].
  simpl. intros H. apply andb_true_iff in H as [Hc Hs].
  apply andb_true_iff in Hc as [H1 H2].
  assert (Ec : utf8_encode_cp c = Ok [c]).
  { unfold utf8_encode_cp. apply Z.leb_le in H1.
    replace (c <? 0) with false by (symmetry; apply Z.ltb_ge; lia).
    rewrite H2. reflexivity. }
  rewrite Ec. simpl.
  specialize (IH Hs).
  destruct (mapM utf8_encode_cp s) as [bss|e]; simpl in *; [|discriminate].
  apply ok_inj in IH. rewrite IH. reflexivity.
Qed.

(** C1. [_encode_uri_part_custom] encodes its argument to UTF-8 (a string
    the strict codec refuses raises [UnicodeEncodeError]) and maps every
    byte as the tilde-escape of the specification does: [-], [_], digits
    and ASCII letters unchanged, every other byte [b] to [~], the hex digit
    of [b / 16] and the hex digit of [b mod 16] (upper case). Space gives
    [~20], [é] gives [~C3~A9], and strings over [A-Za-z0-9_-] are left
    unchanged. *)
Theorem encode_uri_part_custom_tilde_escape :
  (forall s : pystr,
      _encode_uri_part_custom s =
      (bs <- utf8_encode s ;; Ok (flat_map tilde_escape_byte_spec bs)))
  /\ _encode_uri_part_custom (lit " ") = Ok (lit "~20")
  /\ _encode_uri_part_custom [233] = Ok (lit "~C3~A9")
  /\ (forall s : pystr,
        forallb in_tilde_alphabet s = true -> _encode_uri_part_custom s = Ok s).
Proof.
  assert (Hcomp : forall s : pystr,
             _encode_uri_part_custom s =
             (bs <- utf8_encode s ;; Ok (flat_map tilde_escape_byte_spec bs))).
  { intros s. unfold _encode_uri_part_custom.
    destruct (utf8_encode s) as [bs|e] eqn:E; simpl; [|reflexivity].
    pose proof (utf8_encode_range s bs E) as Hr.
    rewrite ascii_decode_flat_map by exact Hr.
    rewrite flat_map_encode_uri_byte by exact Hr. reflexivity. }
  split; [exact Hcomp|].
  split; [reflexivity|]. split; [reflexivity|].
  intros s Hs. rewrite Hcomp.
  rewrite utf8_encode_ascii.
  2:{ induction s as [|c s IH]; [reflexivity|]. simpl in *.
      apply andb_true_iff in Hs as [Hc Hs].
      apply in_tilde_alphabet_ascii in Hc.
      rewrite IH by exact Hs.
      replace ((0 <=? c) && (c <? 128)) with true; [reflexivity|].
      symmetry. apply andb_true_iff. split; [apply Z.leb_le|apply Z.ltb_lt]; lia. }
  simpl. f_equal.
  induction s as [|c s IH]; [reflexivity|]. simpl in *.
  apply andb_true_iff in Hs as [Hc Hs].
  unfold tilde_escape_byte_spec at 1. unfold in_tilde_alphabet in Hc.
  rewrite Hc. simpl. rewrite IH by exact Hs. reflexivity.
Qed.

Lemma encode_uri_part_custom_tilde_escape_witness :
  forallb in_tilde_alphabet (lit "Ch_1-a") = true
  /\ _encode_uri_part_custom (lit "Ch_1-a") = Ok (lit "Ch_1-a").
Proof.
  split; [vm_compute; reflexivity|].
  apply (proj2 (proj2 (proj2 encode_uri_part_custom_tilde_escape))).
  vm_compute; reflexivity.
Defined.

Example z_dec_samples : z_dec 0 = lit "0" /\ z_dec 2000 = lit "2000"
  /\ z_dec 1500000000123456789 = lit "1500000000123456789" /\ z_dec (-42) = lit "-42".
Proof. vm_compute. repeat split. Qed.
Example b64encode_samples : b64encode (lit "Man") = lit "TWFu"
  /\ b64encode (lit "Ma") = lit "TWE=" /\ b64encode (lit "M") = lit "TQ=="
  /\ b64encode (lit "admin:") = lit "YWRtaW46".
Proof. vm_compute. repeat split. Qed.
Example quote_samples : quote (lit "a b/c~") = Ok (lit "a%20b%2Fc~").
Proof. reflexivity. Qed.
Example py_format_sample :
  py_format (lit "/x/{0}?s={1}&e={2}") [lit "a"; lit "1"; lit "2"] = lit "/x/a?s=1&e=2".
Proof. reflexivity. Qed.

(** ** The batch builder's mappings *)

(** C2 (code_bug). [_make_str_dict] iterates over the bound method
    [dict_like_obj.items] instead of over [dict_like_obj.items()], so every
    mapping passed as [options] or [decimation_level_to_retention_period]
    raises [TypeError]; no string dict is produced and nothing is appended. *)
Theorem make_str_dict_raises_on_mappings :
  (forall kvs, ArchiveConfigurationCommands._make_str_dict (PDict kvs) = Err TypeError)
  /\ ArchiveConfigurationCommands.add_channel [] (PStr (lit "ch1")) (PStr (lit "channel_access"))
       (PStr (lit "uuid")) PNone PNone (PBool true)
       (PDict [(PStr (lit "a"), PStr (lit "b"))]) = Err TypeError
  /\ ArchiveConfigurationCommands.add_or_update_channel [] (PStr (lit "ch1"))
       (PStr (lit "channel_access")) (PStr (lit "uuid")) PNone
       (PDict [(PInt 0, PInt 100)]) (PBool true) PNone = Err TypeError
  /\ ArchiveConfigurationCommands.update_channel [] (PStr (lit "ch1")) PNone PNone PNone
       PNone PNone PNone PNone (PDict [(PStr (lit "a"), PStr (lit "b"))]) PNone PNone
     = Err TypeError.
Proof.
  split; [intros kvs; reflexivity|].
  repeat split; reflexivity.
Qed.

(** ** The archive-access client *)

(** C3 (code_bug). [find_channels_by_regexp] quotes the name [pattern],
    which is bound neither locally (its parameter is
    [regular_expression]) nor in the module: every call raises
    [NameError] before any request is sent. *)
Theorem find_channels_by_regexp_name_error :
  forall (self : ArchiveClient.client) (send : request -> response)
         (regular_expression : pystr),
    ArchiveClient.find_channels_by_regexp self send regular_expression
    = Err (NameError (lit "pattern")).
Proof. intros. reflexivity. Qed.

(** ** Status 503 *)

(** C4 (code_bug). [get_server_status] has no [SERVICE_UNAVAILABLE]
    branch: against a server answering 503 it raises the generic
    "Request failed with status code 503", where its sibling
    [get_cluster_status] raises "Service currently not available". *)
Theorem get_server_status_503_generic :
  forall (self : AdminClient.client) (send : request -> response),
    (forall r, resp_code (send r) = 503) ->
    AdminClient.get_server_status self send = Err (request_failed 503)
    /\ AdminClient.get_cluster_status self send = Err service_unavailable
    /\ request_failed 503 <> service_unavailable.
Proof.
  intros self send H.
  unfold AdminClient.get_server_status, AdminClient.get_cluster_status,
    get_status_checks; simpl.
  rewrite !H. split; [reflexivity|]. split; [reflexivity|].
  vm_compute. congruence.
Qed.

Lemma get_server_status_503_generic_witness :
  (forall r, resp_code ((fun _ : request => {| resp_code := 503; resp_content_type := None;
                                                 resp_body := None |}) r) = 503)
  /\ AdminClient.get_server_status {| AdminClient._base_url := lit "http://h:4812/admin/api/1.0";
                                       AdminClient._auth_header := lit "Basic YWRtaW46" |}
       (fun _ => {| resp_code := 503; resp_content_type := None; resp_body := None |})
     = Err (request_failed 503).
Proof.
  split; [intros r; reflexivity|].
  apply (get_server_status_503_generic _
           (fun _ => {| resp_code := 503; resp_content_type := None; resp_body := None |})).
  intros r; reflexivity.
Defined.

(** ** The POST operations *)

Lemma import_server_configuration_send self fs send sid cf a r u s req :
  AdminClient.import_server_configuration_req self fs sid cf a r u s = Ok req ->
  AdminClient.import_server_configuration self fs send sid cf a r u s
  = post_response_data (send req).
Proof.
  intros H. unfold AdminClient.import_server_configuration. rewrite H. reflexivity.
Qed.

Lemma run_archive_configuration_commands_send self send commands req :
  AdminClient.run_archive_configuration_commands_req self commands = Ok req ->
  AdminClient.run_archive_configuration_commands self send commands
  = (resp_data <- post_response_data (send req) ;;
     py_getitem_str resp_data (lit "results")).
Proof.
  intros H. unfold AdminClient.run_archive_configuration_commands. rewrite H. reflexivity.
Qed.

Lemma success_code_range (n : Z) :
  _is_success_code n = true -> 200 <= n < 300.
Proof.
  unfold _is_success_code. rewrite andb_true_iff, Z.leb_le, Z.ltb_lt. lia.
Qed.

Lemma post_response_data_error_message (resp : response) kvs X :
  (_is_success_code (resp_code resp) = true \/ resp_code resp = 500) ->
  _get_resp_data resp = Ok (PDict kvs) ->
  dict_get kvs (lit "errorMessage") = Some X -> X <> PNone ->
  post_response_data resp = Err (PyException X).
Proof.
  intros Hcode Hdata Hget HX.
  assert (Hparse : (resp_data <- _get_resp_data resp ;;
                    has_error <- py_contains (lit "errorMessage") resp_data ;;
                    if has_error then
                      error_message <- py_getitem_str resp_data (lit "errorMessage") ;;
                      match error_message with
                      | PNone => Ok resp_data
                      | _ => Err (PyException error_message)
                      end
                    else Ok resp_data) = Err (PyException X)).
  { rewrite Hdata. unfold bind, py_contains, py_getitem_str. rewrite Hget.
    destruct X; try reflexivity. congruence. }
  unfold post_response_data. destruct Hcode as [Hs|H500].
  - pose proof (success_code_range _ Hs) as Hr.
    replace (resp_code resp =? 403) with false by (symmetry; apply Z.eqb_neq; lia).
    replace (resp_code resp =? 400) with false by (symmetry; apply Z.eqb_neq; lia).
    replace (resp_code resp =? 500) with false by (symmetry; apply Z.eqb_neq; lia).
    replace (resp_code resp =? 503) with false by (symmetry; apply Z.eqb_neq; lia).
    rewrite Hs. exact Hparse.
  - rewrite H500. exact Hparse.
Qed.

(** C5. For [import_server_configuration] and
    [run_archive_configuration_commands]: when the server answers with a
    2xx status or 500 and the parsed body is a dict whose [errorMessage]
    is a value [X] other than [None], the call raises [Exception(X)]
    instead of returning the body. *)
Theorem post_error_message_raises :
  (forall self fs send sid cf a r u s req kvs X,
      AdminClient.import_server_configuration_req self fs sid cf a r u s = Ok req ->
      (_is_success_code (resp_code (send req)) = true \/ resp_code (send req) = 500) ->
      _get_resp_data (send req) = Ok (PDict kvs) ->
      dict_get kvs (lit "errorMessage") = Some X -> X <> PNone ->
      AdminClient.import_server_configuration self fs send sid cf a r u s
      = Err (PyException X))
  /\ (forall self send commands req kvs X,
      AdminClient.run_archive_configuration_commands_req self commands = Ok req ->
      (_is_success_code (resp_code (send req)) = true \/ resp_code (send req) = 500) ->
      _get_resp_data (send req) = Ok (PDict kvs) ->
      dict_get kvs (lit "errorMessage") = Some X -> X <> PNone ->
      AdminClient.run_archive_configuration_commands self send commands
      = Err (PyException X)).
Proof.
  split.
  - intros self fs send sid cf a r u s req kvs X Hreq Hc Hd Hg HX.
    rewrite (import_server_configuration_send _ _ _ _ _ _ _ _ _ _ Hreq).
    eapply post_response_data_error_message; eauto.
  - intros self send commands req kvs X Hreq Hc Hd Hg HX.
    rewrite (run_archive_configuration_commands_send _ _ _ _ Hreq).
    rewrite (post_response_data_error_message _ _ _ Hc Hd Hg HX). reflexivity.
Qed.

Lemma post_error_message_raises_witness :
  AdminClient.import_server_configuration sample_admin sample_fs
    (answer (json_response 200 (PDict [(PStr (lit "errorMessage"), PStr (lit "X"))])))
    (lit "uuid") (AdminClient.ConfigPath (lit "server.xml")) None None None None
  = Err (PyException (PStr (lit "X")))
  /\ AdminClient.run_archive_configuration_commands sample_admin
    (answer (json_response 500 (PDict [(PStr (lit "errorMessage"), PStr (lit "X"));
                                       (PStr (lit "results"), PList [])])))
    (PList [])
  = Err (PyException (PStr (lit "X"))).
Proof.
  split.
  - eapply (proj1 post_error_message_raises);
      [reflexivity | left; reflexivity | reflexivity | reflexivity | discriminate].
  - eapply (proj2 post_error_message_raises);
      [reflexivity | right; reflexivity | reflexivity | reflexivity | discriminate].
Defined.

Lemma post_response_data_failures (resp : response) :
  post_failure_outcomes (post_response_data resp) resp.
Proof.
  unfold post_failure_outcomes, post_response_data. cbv zeta.
  split; [|split].
  - intros H. rewrite H. reflexivity.
  - intros H. rewrite H. cbn [Z.eqb Pos.eqb]. split; [|split; [|split; [|split]]].
    + intros kvs m Hd Hg Ht. rewrite Hd. unfold bind, py_contains, py_getitem_str.
      rewrite Hg, Ht. reflexivity.
    + intros kvs m Hd Hg Ht. rewrite Hd. unfold bind, py_contains, py_getitem_str.
      rewrite Hg, Ht. reflexivity.
    + intros kvs Hd Hg. rewrite Hd. unfold bind, py_contains. rewrite Hg. reflexivity.
    + intros v Hd Hv. rewrite Hd. unfold bind, py_contains, py_getitem_str.
      destruct v as [| | | | |kvs|]; try reflexivity;
        [ destruct (infixb _ _) | destruct (existsb _ _) | exfalso; exact (Hv kvs eq_refl) ];
        reflexivity.
    + intros e Hd. rewrite Hd. reflexivity.
  - intros n Hn Hs H400 H403 H500 H503. rewrite Hn.
    replace (n =? 403) with false by (symmetry; apply Z.eqb_neq; exact H403).
    replace (n =? 400) with false by (symmetry; apply Z.eqb_neq; exact H400).
    replace (n =? 500) with false by (symmetry; apply Z.eqb_neq; exact H500).
    replace (n =? 503) with false by (symmetry; apply Z.eqb_neq; exact H503).
    rewrite Hs. reflexivity.
Qed.

Lemma post_failure_outcomes_bind (res : result pyval) resp (k : pyval -> result pyval) :
  post_failure_outcomes res resp -> post_failure_outcomes (x <- res ;; k x) resp.
Proof.
  unfold post_failure_outcomes. intros [H403 [H400 Hn]]. split; [|split].
  - intros H. rewrite (H403 H). reflexivity.
  - intros H. destruct (H400 H) as [Ha [Hf [Hb [Hv Hc]]]]. split; [|split; [|split; [|split]]].
    + intros kvs m Hd Hg Ht. rewrite (Ha kvs m Hd Hg Ht). reflexivity.
    + intros kvs m Hd Hg Ht. rewrite (Hf kvs m Hd Hg Ht). reflexivity.
    + intros kvs Hd Hg. rewrite (Hb kvs Hd Hg). reflexivity.
    + intros v Hd Hnd. rewrite (Hv v Hd Hnd). reflexivity.
    + intros e Hd. rewrite (Hc e Hd). reflexivity.
  - intros n H1 H2 H3 H4 H5 H6. rewrite (Hn n H1 H2 H3 H4 H5 H6). reflexivity.
Qed.

(** C6 (as amended). For [import_server_configuration] and
    [run_archive_configuration_commands]: 403 raises
    [Exception('Authentication error')]; 400 raises [Exception(m)] with the
    body's [errorMessage] [m] when the body is a dict carrying a truthy one,
    and [Exception('Malformed request. Check the input parameters')] in
    every other case: a dict without [errorMessage] or with a falsy one
    ([None], [''], ...), a parsed body that is not a dict, or a body that
    cannot be read; any other status that is not 2xx,
    500 or 503 raises [Exception('Request failed with status code N')].
    The authentication message, the fallback message and every
    status-code message differ from one another; the message of a 400
    comes from the server and is not kept apart from them. *)
Theorem post_failure_kinds :
  (forall self fs send sid cf a r u s req,
      AdminClient.import_server_configuration_req self fs sid cf a r u s = Ok req ->
      post_failure_outcomes
        (AdminClient.import_server_configuration self fs send sid cf a r u s) (send req))
  /\ (forall self send commands req,
      AdminClient.run_archive_configuration_commands_req self commands = Ok req ->
      post_failure_outcomes
        (AdminClient.run_archive_configuration_commands self send commands) (send req))
  /\ (forall n, authentication_error <> request_failed n)
  /\ (forall n, PyException malformed_request_message <> request_failed n)
  /\ PyException malformed_request_message <> authentication_error.
Proof.
  split; [|split; [|split; [|split]]].
  - intros self fs send sid cf a r u s req Hreq.
    rewrite (import_server_configuration_send _ _ _ _ _ _ _ _ _ _ Hreq).
    apply post_response_data_failures.
  - intros self send commands req Hreq.
    rewrite (run_archive_configuration_commands_send _ _ _ _ Hreq).
    apply post_failure_outcomes_bind, post_response_data_failures.
  - intros n E. vm_compute in E. congruence.
  - intros n E. vm_compute in E. congruence.
  - intros E. vm_compute in E. congruence.
Qed.

Lemma post_failure_kinds_witness :
  AdminClient.import_server_configuration_req sample_admin sample_fs (lit "uuid")
    (AdminClient.ConfigBytes [1; 2; 3]) None None None None
  = Ok {| req_full_url := lit "http://localhost:4812/admin/api/1.0/channels/by-server/uuid/import";
          req_data := Some (PDict [(PStr (lit "addChannels"), PBool true);
                                   (PStr (lit "configurationFile"), PStr (lit "AQID"));
                                   (PStr (lit "removeChannels"), PBool false);
                                   (PStr (lit "simulate"), PBool false);
                                   (PStr (lit "updateChannels"), PBool true)]);
          req_headers := [(lit "Accept", lit "application/json");
                          (lit "Accept-Encoding", lit "gzip");
                          (lit "Authorization", lit "Basic YWRtaW46");
                          (lit "Content-Type", lit "application/json;charset=UTF-8")];
          req_method := lit "POST" |}
  /\ AdminClient.import_server_configuration sample_admin sample_fs
       (answer (json_response 404 (PDict []))) (lit "uuid")
       (AdminClient.ConfigBytes [1; 2; 3]) None None None None
     = Err (request_failed 404).
Proof.
  split; [vm_compute; reflexivity|].
  pose proof (proj1 post_failure_kinds sample_admin sample_fs
                (answer (json_response 404 (PDict []))) (lit "uuid")
                (AdminClient.ConfigBytes [1; 2; 3]) None None None None _
                ltac:(vm_compute; reflexivity)) as [_ [_ Hn]].
  apply (Hn 404); [reflexivity | reflexivity | discriminate | discriminate
                   | discriminate | discriminate].
Defined.

(** C6 as stated fails: a 400 whose body's [errorMessage] is
    "Authentication error" ends exactly as a 403 does. *)
Lemma post_failure_kinds_not_distinct :
  AdminClient.import_server_configuration sample_admin sample_fs
    (answer (json_response 403 (PDict []))) (lit "uuid")
    (AdminClient.ConfigBytes [1; 2; 3]) None None None None
  = Err authentication_error
  /\ AdminClient.import_server_configuration sample_admin sample_fs
    (answer (json_response 400 (PDict [(PStr (lit "errorMessage"),
                                         PStr (lit "Authentication error"))])))
    (lit "uuid") (AdminClient.ConfigBytes [1; 2; 3]) None None None None
  = Err authentication_error.
Proof. split; vm_compute; reflexivity. Qed.

(** ** The import request *)

Lemma b64_char_ascii (n : Z) : 0 <= n < 64 -> 0 <= b64_char n < 128.
Proof.
  intros H. unfold b64_char.
  destruct (n <? 26) eqn:E1; [apply Z.ltb_lt in E1; lia|apply Z.ltb_ge in E1].
  destruct (n <? 52) eqn:E2; [apply Z.ltb_lt in E2; lia|apply Z.ltb_ge in E2].
  destruct (n <? 62) eqn:E3; [apply Z.ltb_lt in E3; lia|apply Z.ltb_ge in E3].
  destruct (n =? 62); lia.
Qed.

Lemma lor_bound (x y : Z) : 0 <= x -> 0 <= y -> 0 <= Z.lor x y <= x + y.
Proof.
  intros Hx Hy. pose proof (Z.add_lor_land x y) as E.
  assert (0 <= Z.land x y) by (apply Z.land_nonneg; auto).
  assert (0 <= Z.lor x y) by (apply Z.lor_nonneg; auto).
  lia.
Qed.

Lemma b64_index_bounds (a b : Z) :
  byte_range a -> byte_range b ->
  0 <= Z.shiftr a 2 < 64
  /\ 0 <= Z.lor (Z.shiftl (Z.land a 3) 4) (Z.shiftr b 4) < 64
  /\ 0 <= Z.lor (Z.shiftl (Z.land a 15) 2) (Z.shiftr b 6) < 64
  /\ 0 <= Z.shiftl (Z.land a 3) 4 < 64
  /\ 0 <= Z.shiftl (Z.land a 15) 2 < 64
  /\ 0 <= Z.land a 63 < 64.
Proof.
  unfold byte_range. intros Ha Hb.
  assert (L3 : Z.land a 3 = a mod 4) by (apply (Z.land_ones a 2); lia).
  assert (L15 : Z.land a 15 = a mod 16) by (apply (Z.land_ones a 4); lia).
  assert (L63 : Z.land a 63 = a mod 64) by (apply (Z.land_ones a 6); lia).
  rewrite L3, L15, L63.
  rewrite !Z.shiftr_div_pow2, !Z.shiftl_mul_pow2 by lia.
  change (2 ^ 2) with 4. change (2 ^ 4) with 16. change (2 ^ 6) with 64.
  pose proof (Z.mod_pos_bound a 4 ltac:(lia)).
  pose proof (Z.mod_pos_bound a 16 ltac:(lia)).
  pose proof (Z.mod_pos_bound a 64 ltac:(lia)).
  assert (0 <= a / 4 < 64) by (split; [apply Z.div_pos|apply Z.div_lt_upper_bound]; lia).
  assert (0 <= b / 16 < 16) by (split; [apply Z.div_pos|apply Z.div_lt_upper_bound]; lia).
  assert (0 <= b / 64 < 4) by (split; [apply Z.div_pos|apply Z.div_lt_upper_bound]; lia).
  pose proof (lor_bound (a mod 4 * 16) (b / 16) ltac:(lia) ltac:(lia)).
  pose proof (lor_bound (a mod 16 * 4) (b / 64) ltac:(lia) ltac:(lia)).
  repeat split; lia.
Qed.

Definition is_ascii_code (c : Z) : bool := (0 <=? c) && (c <? 128).

Lemma is_ascii_code_b64 (n : Z) : 0 <= n < 64 -> is_ascii_code (b64_char n) = true.
Proof.
  intros H. apply b64_char_ascii in H. unfold is_ascii_code.
  apply andb_true_iff. split; [apply Z.leb_le|apply Z.ltb_lt]; lia.
Qed.

Lemma b64encode_ascii : forall bs : pybytes,
  Forall byte_range bs -> forallb is_ascii_code (b64encode bs) = true.
Proof.
  fix IH 1. intros [|a [|b [|c rest]]] H.
  - reflexivity.
  - apply Forall_inv in H as Ha.
    destruct (b64_index_bounds a a Ha Ha) as (H1 & _ & _ & H4 & _).
    simpl. rewrite !is_ascii_code_b64 by assumption. reflexivity.
  - apply Forall_inv in H as Ha. apply Forall_inv_tail, Forall_inv in H as Hb.
    destruct (b64_index_bounds a b Ha Hb) as (H1 & H2 & _ & _ & _ & _).
    destruct (b64_index_bounds b b Hb Hb) as (_ & _ & _ & _ & H5 & _).
    simpl. rewrite !is_ascii_code_b64 by assumption. reflexivity.
  - apply Forall_inv in H as Ha. apply Forall_inv_tail in H.
    apply Forall_inv in H as Hb. apply Forall_inv_tail in H.
    apply Forall_inv in H as Hc. apply Forall_inv_tail in H.
    destruct (b64_index_bounds a b Ha Hb) as (H1 & H2 & _ & _ & _ & _).
    destruct (b64_index_bounds b c Hb Hc) as (_ & _ & H3 & _ & _ & _).
    destruct (b64_index_bounds c c Hc Hc) as (_ & _ & _ & _ & _ & H6).
    simpl. rewrite !is_ascii_code_b64 by assumption. simpl.
    apply IH; exact H.
Qed.

Lemma ascii_decode_b64encode (bs : pybytes) :
  Forall byte_range bs -> ascii_decode (b64encode bs) = Ok (b64encode bs).
Proof.
  intros H. unfold ascii_decode.
  change (fun b => (0 <=? b) && (b <? 128)) with is_ascii_code.
  rewrite b64encode_ascii by exact H. reflexivity.
Qed.

(** C7. The request of [import_server_configuration] carries as JSON body
    the dict [addChannels], [configurationFile], [removeChannels],
    [simulate], [updateChannels], where [configurationFile] is the base64
    encoding of the payload (the [bytes] argument itself, or the contents
    of the file at the given path) and the four flags default to
    [True], [False], [True], [False]. A path that cannot be opened raises
    before any request is built. *)
Theorem import_request_body :
  (forall self fs sid cf a r u s payload,
      match cf with
      | AdminClient.ConfigBytes b => Some b
      | AdminClient.ConfigPath p => fs p
      end = Some payload ->
      Forall byte_range payload ->
      exists req,
        AdminClient.import_server_configuration_req self fs sid cf a r u s = Ok req
        /\ req_method req = lit "POST"
        /\ req_data req =
           Some (PDict [(PStr (lit "addChannels"), PBool (default_arg true a));
                        (PStr (lit "configurationFile"), PStr (b64encode payload));
                        (PStr (lit "removeChannels"), PBool (default_arg false r));
                        (PStr (lit "simulate"), PBool (default_arg false s));
                        (PStr (lit "updateChannels"), PBool (default_arg true u))]))
  /\ (forall self fs sid path a r u s,
      fs path = None ->
      AdminClient.import_server_configuration_req self fs sid
        (AdminClient.ConfigPath path) a r u s = Err OSError)
  /\ (forall b : option bool,
      (default_arg true b, default_arg false b) =
      match b with Some v => (v, v) | None => (true, false) end).
Proof.
  split; [|split].
  - intros self fs sid cf a r u s payload Hp Hr.
    assert (Hdata : (match cf with
                     | AdminClient.ConfigBytes contents => Ok (b64encode contents)
                     | AdminClient.ConfigPath path =>
                         match fs path with
                         | Some contents => Ok (b64encode contents)
                         | None => Err OSError
                         end
                     end) = Ok (b64encode payload)).
    { destruct cf as [b|p]; [injection Hp as ->; reflexivity|].
      rewrite Hp. reflexivity. }
    unfold AdminClient.import_server_configuration_req. cbv zeta.
    rewrite Hdata. unfold bind at 1.
    rewrite ascii_decode_b64encode by exact Hr. unfold bind at 1.
    eexists. split; [reflexivity|]. split; reflexivity.
  - intros self fs sid path a r u s H.
    unfold AdminClient.import_server_configuration_req. cbv zeta. rewrite H. reflexivity.
  - intros [v|]; reflexivity.
Qed.

Lemma import_request_body_witness :
  exists req,
    AdminClient.import_server_configuration_req sample_admin sample_fs (lit "uuid")
      (AdminClient.ConfigPath (lit "server.xml")) None None None None = Ok req
    /\ req_method req = lit "POST"
    /\ req_data req =
       Some (PDict [(PStr (lit "addChannels"), PBool true);
                    (PStr (lit "configurationFile"),
                     PStr (lit "PHNlcnZlci1jb25maWd1cmF0aW9uLz4="));
                    (PStr (lit "removeChannels"), PBool false);
                    (PStr (lit "simulate"), PBool false);
                    (PStr (lit "updateChannels"), PBool true)]).
Proof.
  refine (eq_ind _ (fun x => exists req, _ = Ok req /\ _ /\ req_data req = Some (PDict
            [(PStr (lit "addChannels"), PBool true); (PStr (lit "configurationFile"), PStr x);
             (PStr (lit "removeChannels"), PBool false); (PStr (lit "simulate"), PBool false);
             (PStr (lit "updateChannels"), PBool true)]))
          (proj1 import_request_body sample_admin sample_fs (lit "uuid")
             (AdminClient.ConfigPath (lit "server.xml")) None None None None
             (lit "<server-configuration/>") eq_refl ltac:(vm_compute; repeat constructor; discriminate))
          _ _).
  vm_compute. reflexivity.
Defined.

(** ** The samples request path *)

(** C8. [get_samples] asks for
    [/archive/1/samples/{quote(channel)}?start={start}&end={end}] and
    appends [&count={count}] exactly when [count] is positive (the default
    [count] is 0); [get_samples("ch1", 1000, 2000)] gives
    [/archive/1/samples/ch1?start=1000&end=2000] and [count=50] appends
    [&count=50]. *)
Theorem get_samples_path :
  (forall channel_name start_time end_time count,
      ArchiveClient.get_samples_url channel_name start_time end_time count =
      (quoted <- quote channel_name ;;
       Ok (lit "/archive/1/samples/" ++ quoted ++ lit "?start=" ++ z_dec start_time
           ++ lit "&end=" ++ z_dec end_time
           ++ (if 0 <? default_arg 0 count
               then lit "&count=" ++ z_dec (default_arg 0 count) else []))))
  /\ ArchiveClient.get_samples_url (lit "ch1") 1000 2000 None
     = Ok (lit "/archive/1/samples/ch1?start=1000&end=2000")
  /\ ArchiveClient.get_samples_url (lit "ch1") 1000 2000 (Some 50)
     = Ok (lit "/archive/1/samples/ch1?start=1000&end=2000&count=50").
Proof.
  split; [|split; reflexivity].
  intros channel_name start_time end_time count.
  unfold ArchiveClient.get_samples_url. cbv zeta.
  destruct (quote channel_name) as [quoted|e]; [|reflexivity].
  unfold bind. rewrite Z.gtb_ltb.
  destruct (0 <? default_arg 0 count); f_equal; simpl;
    repeat progress (simpl; rewrite ?app_nil_r, <- ?app_assoc); reflexivity.
Qed.

(** ** The batch builder *)

Ltac run_binds H :=
  unfold bind in H;
  repeat match type of H with
         | context [match ?m with Ok _ => _ | Err _ => _ end] =>
             destruct m; [|discriminate H]
         end.

Lemma builder_appends_one :
  forall self c self',
    ArchiveConfigurationCommands.run_call self c = Ok self' ->
    exists command,
      self' = self ++ [command]
      /\ ArchiveConfigurationCommands.dict_keys command
         = Some (map ArchiveConfigurationCommands.key
                   (ArchiveConfigurationCommands.command_keys c)).
Proof.
  intros self c self' H.
  destruct c; cbn [ArchiveConfigurationCommands.run_call] in H;
    unfold ArchiveConfigurationCommands.add_channel,
      ArchiveConfigurationCommands.add_or_update_channel,
      ArchiveConfigurationCommands.move_channel,
      ArchiveConfigurationCommands.refresh_channel,
      ArchiveConfigurationCommands.remove_channel,
      ArchiveConfigurationCommands.rename_channel,
      ArchiveConfigurationCommands.update_channel in H;
    run_binds H; apply ok_inj in H; subst self';
    eexists; split; reflexivity.
Qed.

(** C9 (as amended). Each of the seven builder methods that returns
    normally appends exactly one command dict at the end of the batch and
    leaves the earlier entries as they were; the dict has exactly the keys
    of the method's dict literal. Whatever the other arguments, every
    optional parameter left at its default [None] is stored as [None]
    (JSON null) in its field. Called with only its required arguments, a
    method stores [None] in every optional field, except [enabled] of
    [add_channel] and [add_or_update_channel], whose default [True] is
    stored as [True]. *)
Theorem builder_append_shape :
  (forall self c self',
      ArchiveConfigurationCommands.run_call self c = Ok self' ->
      length self' = S (length self)
      /\ firstn (length self) self' = self
      /\ exists command,
           self' = self ++ [command]
           /\ ArchiveConfigurationCommands.dict_keys command
              = Some (map ArchiveConfigurationCommands.key
                        (ArchiveConfigurationCommands.command_keys c)))
  /\ (forall self c self' k,
      ArchiveConfigurationCommands.run_call self c = Ok self' ->
      In (k, PNone) (ArchiveConfigurationCommands.optional_fields c) ->
      exists command,
        self' = self ++ [command]
        /\ ArchiveConfigurationCommands.command_field command k = Some PNone)
  /\ (forall self n cst sid,
      ArchiveConfigurationCommands.add_channel self n cst sid PNone PNone (PBool true) PNone
      = Ok (self ++ [PDict [
          (PStr (lit "channelName"), ArchiveConfigurationCommands._make_str n);
          (PStr (lit "commandType"), PStr (lit "add_channel"));
          (PStr (lit "controlSystemType"), ArchiveConfigurationCommands._make_str cst);
          (PStr (lit "decimationLevels"), PNone);
          (PStr (lit "decimationLevelToRetentionPeriod"), PNone);
          (PStr (lit "enabled"), PBool true);
          (PStr (lit "options"), PNone);
          (PStr (lit "serverId"), ArchiveConfigurationCommands._make_str sid)]]))
  /\ (forall self n cst sid,
      ArchiveConfigurationCommands.add_or_update_channel self n cst sid PNone PNone
        (PBool true) PNone
      = Ok (self ++ [PDict [
          (PStr (lit "channelName"), ArchiveConfigurationCommands._make_str n);
          (PStr (lit "commandType"), PStr (lit "add_or_update_channel"));
          (PStr (lit "controlSystemType"), ArchiveConfigurationCommands._make_str cst);
          (PStr (lit "decimationLevels"), PNone);
          (PStr (lit "decimationLevelToRetentionPeriod"), PNone);
          (PStr (lit "enabled"), PBool true);
          (PStr (lit "options"), PNone);
          (PStr (lit "serverId"), ArchiveConfigurationCommands._make_str sid)]]))
  /\ (forall self n sid,
      ArchiveConfigurationCommands.move_channel self n sid PNone
      = Ok (self ++ [PDict [
          (PStr (lit "channelName"), ArchiveConfigurationCommands._make_str n);
          (PStr (lit "commandType"), PStr (lit "move_channel"));
          (PStr (lit "expectedOldServerId"), PNone);
          (PStr (lit "newServerId"), ArchiveConfigurationCommands._make_str sid)]]))
  /\ (forall self n sid,
      ArchiveConfigurationCommands.refresh_channel self n sid
      = Ok (self ++ [PDict [
          (PStr (lit "channelName"), ArchiveConfigurationCommands._make_str n);
          (PStr (lit "commandType"), PStr (lit "refresh_channel"));
          (PStr (lit "serverId"), ArchiveConfigurationCommands._make_str sid)]]))
  /\ (forall self n,
      ArchiveConfigurationCommands.remove_channel self n PNone
      = Ok (self ++ [PDict [
          (PStr (lit "channelName"), ArchiveConfigurationCommands._make_str n);
          (PStr (lit "commandType"), PStr (lit "remove_channel"));
          (PStr (lit "expectedServerId"), PNone)]]))
  /\ (forall self new_name old_name,
      ArchiveConfigurationCommands.rename_channel self new_name old_name PNone
      = Ok (self ++ [PDict [
          (PStr (lit "commandType"), PStr (lit "rename_channel"));
          (PStr (lit "expectedServerId"), PNone);
          (PStr (lit "newChannelName"), ArchiveConfigurationCommands._make_str new_name);
          (PStr (lit "oldChannelName"), ArchiveConfigurationCommands._make_str old_name)]]))
  /\ (forall self n,
      ArchiveConfigurationCommands.update_channel self n PNone PNone PNone PNone PNone
        PNone PNone PNone PNone PNone
      = Ok (self ++ [PDict [
          (PStr (lit "addDecimationLevels"), PNone);
          (PStr (lit "addOptions"), PNone);
          (PStr (lit "channelName"), ArchiveConfigurationCommands._make_str n);
          (PStr (lit "commandType"), PStr (lit "update_channel"));
          (PStr (lit "decimationLevels"), PNone);
          (PStr (lit "decimationLevelToRetentionPeriod"), PNone);
          (PStr (lit "enabled"), PNone);
          (PStr (lit "expectedControlSystemType"), PNone);
          (PStr (lit "expectedServerId"), PNone);
          (PStr (lit "options"), PNone);
          (PStr (lit "removeDecimationLevels"), PNone);
          (PStr (lit "removeOptions"), PNone)]])).
Proof.
  split.
  { intros self c self' H.
    destruct (builder_appends_one self c self' H) as [command [E K]].
    subst self'. rewrite length_app. simpl.
    split; [lia|]. split.
    - rewrite firstn_app, Nat.sub_diag, firstn_all. simpl. apply app_nil_r.
    - exists command. split; [reflexivity|exact K]. }
  split.
  { intros self c self' k H Hin.
    destruct c; cbn [ArchiveConfigurationCommands.optional_fields] in Hin;
      repeat destruct Hin as [Hin|Hin]; try contradiction;
      injection Hin as <- ->;
      cbn [ArchiveConfigurationCommands.run_call] in H;
      unfold ArchiveConfigurationCommands.add_channel,
        ArchiveConfigurationCommands.add_or_update_channel,
        ArchiveConfigurationCommands.move_channel,
        ArchiveConfigurationCommands.remove_channel,
        ArchiveConfigurationCommands.rename_channel,
        ArchiveConfigurationCommands.update_channel in H;
      try change (ArchiveConfigurationCommands._make_str_list PNone) with (@Ok pyval PNone) in H;
      try change (ArchiveConfigurationCommands._make_str_dict PNone) with (@Ok pyval PNone) in H;
      run_binds H;
      apply ok_inj in H; subst self';
      eexists; split; reflexivity. }
  repeat split; reflexivity.
Qed.

Lemma builder_append_shape_witness :
  ArchiveConfigurationCommands.run_call [PStr (lit "earlier")]
    (ArchiveConfigurationCommands.RemoveChannel (PStr (lit "ch1")) (PStr (lit "uuid")))
  = Ok [PStr (lit "earlier");
        PDict [(PStr (lit "channelName"), PStr (lit "ch1"));
               (PStr (lit "commandType"), PStr (lit "remove_channel"));
               (PStr (lit "expectedServerId"), PStr (lit "uuid"))]]
  /\ length [PStr (lit "earlier");
             PDict [(PStr (lit "channelName"), PStr (lit "ch1"));
                    (PStr (lit "commandType"), PStr (lit "remove_channel"));
                    (PStr (lit "expectedServerId"), PStr (lit "uuid"))]]
     = S (length [PStr (lit "earlier")])
  /\ exists self' command,
       ArchiveConfigurationCommands.run_call []
         (ArchiveConfigurationCommands.UpdateChannel (PStr (lit "ch1")) PNone PNone PNone
            PNone (PBool false) PNone PNone PNone PNone PNone) = Ok self'
       /\ self' = [] ++ [command]
       /\ ArchiveConfigurationCommands.command_field command "options" = Some PNone.
Proof.
  split; [reflexivity|]. split.
  - apply (proj1 (proj1 builder_append_shape [PStr (lit "earlier")]
      (ArchiveConfigurationCommands.RemoveChannel (PStr (lit "ch1")) (PStr (lit "uuid")))
      _ ltac:(reflexivity))).
  - eexists.
    assert (H : ArchiveConfigurationCommands.run_call []
         (ArchiveConfigurationCommands.UpdateChannel (PStr (lit "ch1")) PNone PNone PNone
            PNone (PBool false) PNone PNone PNone PNone PNone) = Ok _) by reflexivity.
    destruct (proj1 (proj2 builder_append_shape) [] _ _ "options"%string H
                ltac:(simpl; tauto)) as [command [E F]].
    exists command. split; [exact H|]. split; [exact E|exact F].
Defined.

(** C9 as stated fails: [add_channel('ch1', 'channel_access', 'uuid')]
    leaves [enabled] unsupplied, and the command stores [True] there, not
    [None]. *)
Lemma builder_enabled_default_not_null :
  ArchiveConfigurationCommands.run_call []
    (ArchiveConfigurationCommands.AddChannel (PStr (lit "ch1"))
       (PStr (lit "channel_access")) (PStr (lit "uuid")) PNone PNone (PBool true) PNone)
  = Ok [PDict [
          (PStr (lit "channelName"), PStr (lit "ch1"));
          (PStr (lit "commandType"), PStr (lit "add_channel"));
          (PStr (lit "controlSystemType"), PStr (lit "channel_access"));
          (PStr (lit "decimationLevels"), PNone);
          (PStr (lit "decimationLevelToRetentionPeriod"), PNone);
          (PStr (lit "enabled"), PBool true);
          (PStr (lit "options"), PNone);
          (PStr (lit "serverId"), PStr (lit "uuid"))]]
  /\ PBool true <> PNone.
Proof. split; [reflexivity | discriminate]. Qed.

(** C10. [add_channel] and [add_or_update_channel] store [bool(None)],
    i.e. [False], in [enabled] when passed [enabled=None], while
    [update_channel] stores [None] there; with no other argument that
    could raise, the two add methods do append their command. *)
Theorem enabled_none_mapping :
  (forall self n cst sid dl dlr opts self',
      ArchiveConfigurationCommands.add_channel self n cst sid dl dlr PNone opts = Ok self' ->
      exists command, self' = self ++ [command]
        /\ ArchiveConfigurationCommands.command_field command "enabled" = Some (PBool false))
  /\ (forall self n cst sid dl dlr opts self',
      ArchiveConfigurationCommands.add_or_update_channel self n cst sid dl dlr PNone opts
      = Ok self' ->
      exists command, self' = self ++ [command]
        /\ ArchiveConfigurationCommands.command_field command "enabled" = Some (PBool false))
  /\ (forall self n adl ao dl dlr ecst esid opts rdl ro self',
      ArchiveConfigurationCommands.update_channel self n adl ao dl dlr PNone ecst esid
        opts rdl ro = Ok self' ->
      exists command, self' = self ++ [command]
        /\ ArchiveConfigurationCommands.command_field command "enabled" = Some PNone)
  /\ (forall self n cst sid,
      (exists self',
        ArchiveConfigurationCommands.add_channel self n cst sid PNone PNone PNone PNone
        = Ok self')
      /\ (exists self',
        ArchiveConfigurationCommands.add_or_update_channel self n cst sid PNone PNone
          PNone PNone = Ok self')).
Proof.
  split; [|split; [|split]].
  - intros self n cst sid dl dlr opts self' H.
    unfold ArchiveConfigurationCommands.add_channel in H. run_binds H.
    apply ok_inj in H. subst self'. eexists. split; reflexivity.
  - intros self n cst sid dl dlr opts self' H.
    unfold ArchiveConfigurationCommands.add_or_update_channel in H. run_binds H.
    apply ok_inj in H. subst self'. eexists. split; reflexivity.
  - intros self n adl ao dl dlr ecst esid opts rdl ro self' H.
    unfold ArchiveConfigurationCommands.update_channel in H. run_binds H.
    apply ok_inj in H. subst self'. eexists. split; reflexivity.
  - intros self n cst sid. split; eexists; reflexivity.
Qed.

Lemma enabled_none_mapping_witness :
  exists command,
    [command] = [] ++ [command]
    /\ ArchiveConfigurationCommands.add_channel [] (PStr (lit "ch1"))
         (PStr (lit "channel_access")) (PStr (lit "uuid")) (PList [PInt 0; PInt 60])
         PNone PNone PNone = Ok [command]
    /\ ArchiveConfigurationCommands.command_field command "enabled" = Some (PBool false).
Proof.
  destruct (proj1 enabled_none_mapping [] (PStr (lit "ch1")) (PStr (lit "channel_access"))
              (PStr (lit "uuid")) (PList [PInt 0; PInt 60]) PNone PNone _
              ltac:(reflexivity)) as [command [E F]].
  exists command. split; [reflexivity|]. split; [|exact F].
  simpl in E. rewrite <- E. reflexivity.
Defined.

(** * Further properties of the clients *)


Lemma cons_eq_inv {A} (x y : A) l m : x :: l = y :: m -> x = y /\ l = m.
Proof. intros H; inversion H; auto. Qed.

Lemma land_mod_3 (x : Z) : Z.land x 3 = x mod 4.
Proof. apply (Z.land_ones x 2); lia. Qed.
Lemma land_mod_15 (x : Z) : Z.land x 15 = x mod 16.
Proof. apply (Z.land_ones x 4); lia. Qed.
Lemma land_mod_63 (x : Z) : Z.land x 63 = x mod 64.
Proof. apply (Z.land_ones x 6); lia. Qed.
Lemma land_mod_255 (x : Z) : Z.land x 255 = x mod 256.
Proof. apply (Z.land_ones x 8); lia. Qed.

Lemma lor_shiftl_low (x y k : Z) :
  0 <= k -> 0 <= y < 2 ^ k -> Z.lor (Z.shiftl x k) y = x * 2 ^ k + y.
Proof.
  intros Hk Hy. rewrite Z.shiftl_mul_pow2 by lia.
  assert (Hl : Z.land (x * 2 ^ k) y = 0).
  { apply Z.bits_inj'. intros n Hn. rewrite Z.land_spec, Z.bits_0.
    destruct (Z.lt_ge_cases n k) as [Hnk|Hnk].
    - rewrite Z.mul_pow2_bits_low by lia. reflexivity.
    - rewrite <- (Z.mod_small y (2 ^ k)) by lia.
      rewrite Z.mod_pow2_bits_high by lia. apply andb_false_r. }
  pose proof (Z.add_lor_land (x * 2 ^ k) y). lia.
Qed.

Lemma b64_sextet_1 (a b : Z) : byte_range a -> byte_range b ->
  Z.lor (Z.shiftl (Z.land a 3) 4) (Z.shiftr b 4) = a mod 4 * 16 + b / 16.
Proof.
  unfold byte_range; intros Ha Hb. rewrite land_mod_3, Z.shiftr_div_pow2 by lia.
  rewrite lor_shiftl_low; [reflexivity|lia|].
  change (2 ^ 4) with 16. split; [apply Z.div_pos|apply Z.div_lt_upper_bound]; lia.
Qed.

Lemma b64_sextet_2 (b c : Z) : byte_range b -> byte_range c ->
  Z.lor (Z.shiftl (Z.land b 15) 2) (Z.shiftr c 6) = b mod 16 * 4 + c / 64.
Proof.
  unfold byte_range; intros Hb Hc. rewrite land_mod_15, Z.shiftr_div_pow2 by lia.
  rewrite lor_shiftl_low; [reflexivity|lia|].
  change (2 ^ 6) with 64. change (2 ^ 2) with 4.
  split; [apply Z.div_pos|apply Z.div_lt_upper_bound]; lia.
Qed.

Lemma a2b_out_1 (l v : Z) : 0 <= v < 64 ->
  Z.land (Z.lor (Z.shiftl l 2) (Z.shiftr v 4)) 255 = (l * 4 + v / 16) mod 256.
Proof.
  intros Hv. rewrite land_mod_255, Z.shiftr_div_pow2 by lia.
  rewrite lor_shiftl_low; [reflexivity|lia|].
  change (2 ^ 4) with 16. change (2 ^ 2) with 4.
  split; [apply Z.div_pos|apply Z.div_lt_upper_bound]; lia.
Qed.

Lemma a2b_out_2 (l v : Z) : 0 <= v < 64 ->
  Z.land (Z.lor (Z.shiftl l 4) (Z.shiftr v 2)) 255 = (l * 16 + v / 4) mod 256.
Proof.
  intros Hv. rewrite land_mod_255, Z.shiftr_div_pow2 by lia.
  rewrite lor_shiftl_low; [reflexivity|lia|].
  change (2 ^ 4) with 16. change (2 ^ 2) with 4.
  split; [apply Z.div_pos|apply Z.div_lt_upper_bound]; lia.
Qed.

Lemma a2b_out_3 (l v : Z) : 0 <= v < 64 ->
  Z.land (Z.lor (Z.shiftl l 6) v) 255 = (l * 64 + v) mod 256.
Proof.
  intros Hv. rewrite land_mod_255.
  rewrite lor_shiftl_low; [reflexivity|lia|].
  change (2 ^ 6) with 64. lia.
Qed.

Lemma b64_char_index (n : Z) :
  0 <= n < 64 -> b64_index (b64_char n) = Some n /\ (b64_char n =? 61) = false.
Proof.
  intros Hn. assert (Hb : byte_range n) by (unfold byte_range; lia). revert n Hb Hn.
  apply (all_bytes (fun n => 0 <= n < 64 ->
                     b64_index (b64_char n) = Some n /\ (b64_char n =? 61) = false)
           (fun n => (64 <=? n) || match b64_index (b64_char n) with
                                   | Some m => (m =? n) && negb (b64_char n =? 61)
                                   | None => false
                                   end)).
  - intros n Hp Hn. destruct (64 <=? n) eqn:E; [apply Z.leb_le in E; lia|].
    simpl in Hp. destruct (b64_index (b64_char n)) as [m|]; [|discriminate].
    apply andb_true_iff in Hp as [Hm H61]. apply Z.eqb_eq in Hm. subst m.
    split; [reflexivity|]. apply negb_true_iff; exact H61.
  - vm_compute. reflexivity.
Qed.

Lemma a2b_data_0 c t l p v : b64_index c = Some v -> (c =? 61) = false ->
  a2b_base64_loop (c :: t) 0 l p false = a2b_base64_loop t 1 v 0 false.
Proof. intros H1 H2. simpl. rewrite H2, H1. reflexivity. Qed.
Lemma a2b_data_1 c t l p v : b64_index c = Some v -> (c =? 61) = false ->
  a2b_base64_loop (c :: t) 1 l p false
  = (rest <- a2b_base64_loop t 2 (Z.land v 15) 0 false ;;
     Ok (Z.land (Z.lor (Z.shiftl l 2) (Z.shiftr v 4)) 255 :: rest)).
Proof. intros H1 H2. simpl. rewrite H2, H1. reflexivity. Qed.
Lemma a2b_data_2 c t l p v : b64_index c = Some v -> (c =? 61) = false ->
  a2b_base64_loop (c :: t) 2 l p false
  = (rest <- a2b_base64_loop t 3 (Z.land v 3) 0 false ;;
     Ok (Z.land (Z.lor (Z.shiftl l 4) (Z.shiftr v 2)) 255 :: rest)).
Proof. intros H1 H2. simpl. rewrite H2, H1. reflexivity. Qed.
Lemma a2b_data_3 c t l p v : b64_index c = Some v -> (c =? 61) = false ->
  a2b_base64_loop (c :: t) 3 l p false
  = (rest <- a2b_base64_loop t 0 0 0 false ;;
     Ok (Z.land (Z.lor (Z.shiftl l 6) v) 255 :: rest)).
Proof. intros H1 H2. simpl. rewrite H2, H1. reflexivity. Qed.

Lemma a2b_pad_2 l st : a2b_base64_loop [61; 61] 2 l 0 st = Ok [].
Proof. reflexivity. Qed.
Lemma a2b_pad_3 l st : a2b_base64_loop [61] 3 l 0 st = Ok [].
Proof. reflexivity. Qed.

Ltac a2b_step lem n :=
  let H := fresh in
  destruct (b64_char_index n ltac:(assumption)) as [? H];
  rewrite (lem _ _ _ _ n) by assumption; clear H.

Lemma a2b_base64_b64encode : forall bs : pybytes,
  Forall byte_range bs -> a2b_base64_loop (b64encode bs) 0 0 0 false = Ok bs.
Proof.
  fix IH 1. intros [|a [|b [|c rest]]] H.
  - reflexivity.
  - apply Forall_inv in H as Ha.
    destruct (b64_index_bounds a a Ha Ha) as (H0 & _ & _ & H1 & _).
    cbn [b64encode].
    a2b_step a2b_data_0 (Z.shiftr a 2).
    a2b_step a2b_data_1 (Z.shiftl (Z.land a 3) 4).
    rewrite a2b_pad_2. cbn [bind]. f_equal. f_equal.
    rewrite a2b_out_1 by lia. rewrite Z.shiftr_div_pow2, Z.shiftl_mul_pow2, land_mod_3 by lia.
    change (2 ^ 2) with 4. change (2 ^ 4) with 16. unfold byte_range in Ha.
    Z.div_mod_to_equations. lia.
  - apply Forall_inv in H as Ha. apply Forall_inv_tail, Forall_inv in H as Hb.
    destruct (b64_index_bounds a b Ha Hb) as (H0 & H1 & _ & _ & _ & _).
    destruct (b64_index_bounds b b Hb Hb) as (_ & _ & _ & _ & H2 & _).
    cbn [b64encode].
    a2b_step a2b_data_0 (Z.shiftr a 2).
    a2b_step a2b_data_1 (Z.lor (Z.shiftl (Z.land a 3) 4) (Z.shiftr b 4)).
    a2b_step a2b_data_2 (Z.shiftl (Z.land b 15) 2).
    rewrite a2b_pad_3. cbn [bind].
    rewrite a2b_out_1, a2b_out_2 by lia.
    rewrite (b64_sextet_1 a b Ha Hb).
    rewrite Z.shiftr_div_pow2, Z.shiftl_mul_pow2, land_mod_15, land_mod_15 by lia.
    change (2 ^ 2) with 4. unfold byte_range in Ha, Hb.
    f_equal. f_equal; [|f_equal]; Z.div_mod_to_equations; lia.
  - apply Forall_inv in H as Ha. apply Forall_inv_tail in H.
    apply Forall_inv in H as Hb. apply Forall_inv_tail in H.
    apply Forall_inv in H as Hc. apply Forall_inv_tail in H.
    destruct (b64_index_bounds a b Ha Hb) as (H0 & H1 & _ & _ & _ & _).
    destruct (b64_index_bounds b c Hb Hc) as (_ & _ & H2 & _ & _ & _).
    destruct (b64_index_bounds c c Hc Hc) as (_ & _ & _ & _ & _ & H3).
    cbn [b64encode app].
    a2b_step a2b_data_0 (Z.shiftr a 2).
    a2b_step a2b_data_1 (Z.lor (Z.shiftl (Z.land a 3) 4) (Z.shiftr b 4)).
    a2b_step a2b_data_2 (Z.lor (Z.shiftl (Z.land b 15) 2) (Z.shiftr c 6)).
    a2b_step a2b_data_3 (Z.land c 63).
    rewrite (IH rest H). cbn [bind].
    rewrite a2b_out_1, a2b_out_2, a2b_out_3 by lia.
    rewrite (b64_sextet_1 a b Ha Hb), (b64_sextet_2 b c Hb Hc).
    rewrite Z.shiftr_div_pow2, land_mod_15, land_mod_3, land_mod_63 by lia.
    change (2 ^ 2) with 4. unfold byte_range in Ha, Hb, Hc.
    f_equal. f_equal; [|f_equal; [|f_equal]]; Z.div_mod_to_equations; lia.
Qed.

Lemma b64decode_validate_b64encode (bs : pybytes) :
  Forall byte_range bs -> b64decode_validate (b64encode bs) = Ok bs.
Proof.
  intros H. pose proof (a2b_base64_b64encode bs H) as E.
  unfold b64decode_validate.
  destruct (b64encode bs) as [|c t] eqn:Eb; [exact E|].
  replace (c =? 61) with false; [exact E|].
  destruct bs as [|a [|b [|d rest]]]; [discriminate| | |];
    apply Forall_inv in H as Ha; cbn [b64encode app] in Eb;
    destruct (b64_index_bounds a a Ha Ha) as (H0 & _);
    apply cons_eq_inv in Eb as [<- _]; symmetry; apply b64_char_index; exact H0.
Qed.

Lemma a2b_base64_loop_bad (s : pybytes) : forall q l p st,
  existsb (fun c => negb (c =? 61) && match b64_index c with None => true | Some _ => false end) s
  = true ->
  a2b_base64_loop s q l p st = Err ValueError.
Proof.
  induction s as [|c t IH]; intros q l p st H; [discriminate|].
  cbn [existsb] in H. cbn [a2b_base64_loop].
  destruct (c =? 61) eqn:E61.
  - cbn [negb andb orb] in H.
    destruct (2 <=? q); [|apply IH; exact H].
    destruct (4 <=? q + (p + 1)); [|apply IH; exact H].
    destruct t; [discriminate|reflexivity].
  - destruct (b64_index c) as [v|] eqn:Ei; [|reflexivity].
    cbn [negb andb orb] in H.
    destruct st; [reflexivity|].
    destruct (q =? 0); [apply IH; exact H|].
    destruct (q =? 1); [rewrite IH by exact H; reflexivity|].
    destruct (q =? 2); rewrite IH by exact H; reflexivity.
Qed.

Lemma format_userpass (u p : pystr) : py_format (lit "{0}:{1}") [u; p] = u ++ 58 :: p.
Proof. simpl. rewrite app_nil_r. reflexivity. Qed.

(** X1. [AdminClient.__init__] stores as authorization header ["Basic "]
    followed by the base64 of the UTF-8 bytes of ["username:password"]; the
    strict base64 decoding of what follows ["Basic "] gives these bytes
    back. Credentials that cannot be encoded to UTF-8 make [__init__] raise
    the encoding error. *)
Theorem auth_header_roundtrip :
  (forall server_name server_port username password self,
      AdminClient.__init__ server_name server_port username password = Ok self ->
      exists userpass,
        utf8_encode (username ++ 58 :: password) = Ok userpass
        /\ AdminClient._auth_header self = lit "Basic " ++ b64encode userpass
        /\ b64decode_validate (skipn 6 (AdminClient._auth_header self)) = Ok userpass)
  /\ (forall server_name server_port username password e,
      utf8_encode (username ++ 58 :: password) = Err e ->
      AdminClient.__init__ server_name server_port username password = Err e).
Proof.
  split.
  - intros server_name server_port username password self H.
    unfold AdminClient.__init__, AdminClient._generate_auth_header in H.
    rewrite format_userpass in H.
    destruct (utf8_encode (username ++ 58 :: password)) as [userpass|e] eqn:E;
      [|discriminate]. cbn [bind] in H.
    rewrite ascii_decode_b64encode in H by (eapply utf8_encode_range; exact E).
    cbn [bind] in H. apply ok_inj in H. subst self. cbn [AdminClient._auth_header].
    exists userpass. split; [reflexivity|]. split; [reflexivity|].
    apply b64decode_validate_b64encode. eapply utf8_encode_range; exact E.
  - intros server_name server_port username password e E.
    unfold AdminClient.__init__, AdminClient._generate_auth_header.
    rewrite format_userpass, E. reflexivity.
Qed.

Lemma auth_header_roundtrip_witness :
  AdminClient.__init__ (lit "localhost") 4812 (lit "admin") [] = Ok sample_admin
  /\ b64decode_validate (skipn 6 (AdminClient._auth_header sample_admin)) = Ok (lit "admin:").
Proof.
  split; [vm_compute; reflexivity|].
  destruct (proj1 auth_header_roundtrip (lit "localhost") 4812 (lit "admin") [] sample_admin
              ltac:(vm_compute; reflexivity)) as [userpass [E [_ D]]].
  rewrite D. vm_compute in E. apply ok_inj in E. subst userpass. reflexivity.
Defined.

Lemma b64decode_validate_bad (s : pybytes) :
  existsb (fun c => negb (c =? 61) && match b64_index c with None => true | Some _ => false end) s
  = true ->
  b64decode_validate s = Err ValueError.
Proof.
  intros H. unfold b64decode_validate.
  destruct s as [|c t]; [discriminate|].
  destruct (c =? 61); [reflexivity|]. apply a2b_base64_loop_bad; exact H.
Qed.

(** X2. [base64.b64decode(..., validate=True)], as
    [export_server_configuration] uses it, inverts [base64.b64encode] on
    bytes; input holding a character that is neither [=] nor in the base64
    alphabet, or starting with [=], raises [binascii.Error] (a
    [ValueError]). *)
Theorem b64decode_roundtrip :
  (forall bs : pybytes, Forall byte_range bs -> b64decode_validate (b64encode bs) = Ok bs)
  /\ (forall s : pybytes,
      existsb (fun c => negb (c =? 61) && match b64_index c with None => true | Some _ => false end) s
      = true ->
      b64decode_validate s = Err ValueError)
  /\ (forall t : pybytes, b64decode_validate (61 :: t) = Err ValueError).
Proof.
  split; [exact b64decode_validate_b64encode|]. split; [|reflexivity].
  exact b64decode_validate_bad.
Qed.

Lemma b64decode_roundtrip_witness :
  Forall byte_range [0; 255; 16]
  /\ b64decode_validate (b64encode [0; 255; 16]) = Ok [0; 255; 16]
  /\ b64decode_validate (lit "YW J=") = Err ValueError.
Proof.
  assert (Hr : Forall byte_range [0; 255; 16])
    by (repeat constructor; unfold byte_range; lia).
  split; [exact Hr|]. split.
  - apply (proj1 b64decode_roundtrip). exact Hr.
  - apply (proj1 (proj2 b64decode_roundtrip)). vm_compute. reflexivity.
Defined.

Lemma admin_get_ok self url : exists r, AdminClient.get self url = Ok r.
Proof. eexists. reflexivity. Qed.

Lemma archive_get_ok self url : exists r, ArchiveClient.get self url = Ok r.
Proof. eexists. reflexivity. Qed.

Lemma status_checks_ok resp :
  _is_success_code (resp_code resp) = true -> get_status_checks resp = Ok tt.
Proof.
  intros Hs. pose proof (success_code_range _ Hs). unfold get_status_checks.
  replace (resp_code resp =? 503) with false by (symmetry; apply Z.eqb_neq; lia).
  rewrite Hs. reflexivity.
Qed.

Lemma encode_ascii_b64encode (bs : pybytes) :
  Forall byte_range bs -> encode_ascii (PStr (b64encode bs)) = Ok (b64encode bs).
Proof.
  intros H. unfold encode_ascii.
  change (fun c => (0 <=? c) && (c <? 128)) with is_ascii_code.
  rewrite b64encode_ascii by exact H. reflexivity.
Qed.

Lemma export_after_body self resp fs writable server_id configuration_file kvs :
  _is_success_code (resp_code resp) = true ->
  _get_resp_data resp = Ok (PDict kvs) ->
  AdminClient.export_server_configuration self (answer resp) fs writable server_id
    configuration_file
  = (config_file <- py_getitem_str (PDict kvs) (lit "configurationFile") ;;
     config_ascii <- encode_ascii config_file ;;
     config_file_contents <- b64decode_validate config_ascii ;;
     match configuration_file with
     | None => Ok (Some config_file_contents, fs)
     | Some path =>
         if writable path then Ok (None, fs_write fs path config_file_contents)
         else Err OSError
     end).
Proof.
  intros Hs Hd. unfold AdminClient.export_server_configuration.
  destruct (admin_get_ok self (py_format (lit "/channels/by-server/{0}/export") [server_id]))
    as [r Hr].
  rewrite Hr. cbn [bind]. unfold answer. rewrite (status_checks_ok _ Hs). cbn [bind].
  rewrite Hd. reflexivity.
Qed.

(** X3. When the server answers with a success code and a dict whose
    [configurationFile] is the base64 of some bytes,
    [export_server_configuration] returns these bytes if no file is given;
    given a writable file it writes them to that file, leaves every other
    file unchanged and returns [None]; given a file it cannot open for
    writing it raises [OSError]. *)
Theorem export_returns_or_writes :
  forall self resp fs writable server_id kvs payload,
    _is_success_code (resp_code resp) = true ->
    _get_resp_data resp = Ok (PDict kvs) ->
    dict_get kvs (lit "configurationFile") = Some (PStr (b64encode payload)) ->
    Forall byte_range payload ->
    AdminClient.export_server_configuration self (answer resp) fs writable server_id None
    = Ok (Some payload, fs)
    /\ (forall path, writable path = true ->
        exists fs',
          AdminClient.export_server_configuration self (answer resp) fs writable server_id
            (Some path) = Ok (None, fs')
          /\ fs' path = Some payload
          /\ (forall q, q <> path -> fs' q = fs q))
    /\ (forall path, writable path = false ->
        AdminClient.export_server_configuration self (answer resp) fs writable server_id
          (Some path) = Err OSError).
Proof.
  intros self resp fs writable server_id kvs payload Hs Hd Hk Hp.
  assert (E : forall cf,
             AdminClient.export_server_configuration self (answer resp) fs writable server_id cf
             = match cf with
               | None => Ok (Some payload, fs)
               | Some path =>
                   if writable path then Ok (None, fs_write fs path payload) else Err OSError
               end).
  { intros cf. rewrite (export_after_body _ _ _ _ _ _ _ Hs Hd).
    cbn [py_getitem_str]. rewrite Hk. cbn [bind].
    rewrite encode_ascii_b64encode by exact Hp. cbn [bind].
    rewrite b64decode_validate_b64encode by exact Hp. reflexivity. }
  split; [|split].
  - apply E.
  - intros path Hw. rewrite E, Hw. eexists. split; [reflexivity|]. split.
    + unfold fs_write. replace (pystr_eqb path path) with true; [reflexivity|].
      symmetry. apply pystr_eqb_eq. reflexivity.
    + intros q Hq. unfold fs_write. destruct (pystr_eqb q path) eqn:Eq; [|reflexivity].
      apply pystr_eqb_eq in Eq. contradiction.
  - intros path Hw. rewrite E, Hw. reflexivity.
Qed.

Lemma export_returns_or_writes_witness :
  AdminClient.export_server_configuration sample_admin
    (answer (json_response 200 (PDict [(PStr (lit "configurationFile"), PStr (lit "PHgvPg=="))])))
    sample_fs (fun _ => true) (lit "uuid") None
  = Ok (Some (lit "<x/>"), sample_fs).
Proof.
  exact (proj1 (export_returns_or_writes sample_admin
    (json_response 200 (PDict [(PStr (lit "configurationFile"), PStr (lit "PHgvPg=="))]))
    sample_fs (fun _ => true) (lit "uuid")
    [(PStr (lit "configurationFile"), PStr (lit "PHgvPg=="))] (lit "<x/>")
    ltac:(reflexivity) ltac:(reflexivity) ltac:(vm_compute; reflexivity)
    ltac:(repeat constructor; unfold byte_range; lia))).
Defined.

Lemma import_config_bytes_req self fs server_id contents a r u s :
  Forall byte_range contents ->
  exists req,
    AdminClient.import_server_configuration_req self fs server_id
      (AdminClient.ConfigBytes contents) a r u s = Ok req
    /\ req_data req =
       Some (PDict [(PStr (lit "addChannels"), PBool (default_arg true a));
                    (PStr (lit "configurationFile"), PStr (b64encode contents));
                    (PStr (lit "removeChannels"), PBool (default_arg false r));
                    (PStr (lit "simulate"), PBool (default_arg false s));
                    (PStr (lit "updateChannels"), PBool (default_arg true u))]).
Proof.
  intros H. unfold AdminClient.import_server_configuration_req. cbv zeta. cbn [bind].
  rewrite ascii_decode_b64encode by exact H. cbn [bind].
  eexists. split; reflexivity.
Qed.

(** X4. When the server's [configurationFile] is the standard base64
    encoding of some bytes (the string [base64.b64encode] gives for them),
    the bytes returned by [export_server_configuration] passed as
    [configuration_file] to [import_server_configuration] give a request
    whose [configurationFile] field is that very string, next to the four
    flags with their defaults. *)
Theorem export_import_same_payload :
  forall self resp fs writable server_id kvs s payload a r u sim,
    _is_success_code (resp_code resp) = true ->
    _get_resp_data resp = Ok (PDict kvs) ->
    dict_get kvs (lit "configurationFile") = Some (PStr s) ->
    s = b64encode payload -> Forall byte_range payload ->
    exists contents req,
      AdminClient.export_server_configuration self (answer resp) fs writable server_id None
      = Ok (Some contents, fs)
      /\ AdminClient.import_server_configuration_req self fs server_id
           (AdminClient.ConfigBytes contents) a r u sim = Ok req
      /\ req_data req =
         Some (PDict [(PStr (lit "addChannels"), PBool (default_arg true a));
                      (PStr (lit "configurationFile"), PStr s);
                      (PStr (lit "removeChannels"), PBool (default_arg false r));
                      (PStr (lit "simulate"), PBool (default_arg false sim));
                      (PStr (lit "updateChannels"), PBool (default_arg true u))]).
Proof.
  intros self resp fs writable server_id kvs s payload a r u sim Hs Hd Hk -> Hp.
  assert (E : AdminClient.export_server_configuration self (answer resp) fs writable server_id
                None = Ok (Some payload, fs)).
  { rewrite (export_after_body _ _ _ _ _ _ _ Hs Hd).
    cbn [py_getitem_str]. rewrite Hk. cbn [bind].
    rewrite encode_ascii_b64encode by exact Hp. cbn [bind].
    rewrite b64decode_validate_b64encode by exact Hp. reflexivity. }
  destruct (import_config_bytes_req self fs server_id payload a r u sim Hp) as [req [Hreq Hdata]].
  exists payload, req. split; [exact E|]. split; [exact Hreq|exact Hdata].
Qed.

Lemma export_import_same_payload_witness :
  exists contents req,
    AdminClient.export_server_configuration sample_admin
      (answer (json_response 200 (PDict [(PStr (lit "configurationFile"), PStr (lit "AQID"))])))
      sample_fs (fun _ => true) (lit "uuid") None = Ok (Some contents, sample_fs)
    /\ AdminClient.import_server_configuration_req sample_admin sample_fs (lit "uuid")
         (AdminClient.ConfigBytes contents) None None None None = Ok req
    /\ req_data req =
       Some (PDict [(PStr (lit "addChannels"), PBool true);
                    (PStr (lit "configurationFile"), PStr (lit "AQID"));
                    (PStr (lit "removeChannels"), PBool false);
                    (PStr (lit "simulate"), PBool false);
                    (PStr (lit "updateChannels"), PBool true)]).
Proof.
  exact (export_import_same_payload sample_admin
    (json_response 200 (PDict [(PStr (lit "configurationFile"), PStr (lit "AQID"))]))
    sample_fs (fun _ => true) (lit "uuid")
    [(PStr (lit "configurationFile"), PStr (lit "AQID"))] (lit "AQID") [1; 2; 3]
    None None None None
    ltac:(reflexivity) ltac:(reflexivity) ltac:(reflexivity) ltac:(vm_compute; reflexivity)
    ltac:(repeat constructor; unfold byte_range; lia)).
Defined.

(** X5. On a successful dict response, [export_server_configuration]
    raises [KeyError] without a [configurationFile] key, [AttributeError]
    when its value is not a [str], [UnicodeEncodeError] when the string
    holds a non-ASCII character, and [ValueError] when an ASCII string holds
    a character outside the base64 alphabet (other than [=]). *)
Theorem export_payload_errors :
  forall self resp fs writable server_id cf kvs,
    _is_success_code (resp_code resp) = true ->
    _get_resp_data resp = Ok (PDict kvs) ->
    (dict_get kvs (lit "configurationFile") = None ->
     AdminClient.export_server_configuration self (answer resp) fs writable server_id cf
     = Err KeyError)
    /\ (forall v, dict_get kvs (lit "configurationFile") = Some v -> (forall s, v <> PStr s) ->
        AdminClient.export_server_configuration self (answer resp) fs writable server_id cf
        = Err AttributeError)
    /\ (forall s, dict_get kvs (lit "configurationFile") = Some (PStr s) ->
        existsb (fun c => 128 <=? c) s = true ->
        AdminClient.export_server_configuration self (answer resp) fs writable server_id cf
        = Err UnicodeEncodeError)
    /\ (forall s, dict_get kvs (lit "configurationFile") = Some (PStr s) ->
        forallb (fun c => (0 <=? c) && (c <? 128)) s = true ->
        existsb (fun c => negb (c =? 61) && match b64_index c with None => true | Some _ => false end) s
        = true ->
        AdminClient.export_server_configuration self (answer resp) fs writable server_id cf
        = Err ValueError).
Proof.
  intros self resp fs writable server_id cf kvs Hs Hd.
  rewrite (export_after_body _ _ _ _ _ _ _ Hs Hd). cbn [py_getitem_str].
  split; [|split; [|split]].
  - intros Hk. rewrite Hk. reflexivity.
  - intros v Hk Hv. rewrite Hk. cbn [bind].
    destruct v; try reflexivity. exfalso; eapply Hv; reflexivity.
  - intros s Hk Hn. rewrite Hk. cbn [bind encode_ascii].
    replace (forallb (fun c => (0 <=? c) && (c <? 128)) s) with false; [reflexivity|].
    symmetry. apply not_true_iff_false. intros Hall.
    apply existsb_exists in Hn as [c [Hin Hc]].
    rewrite forallb_forall in Hall. specialize (Hall c Hin).
    apply andb_true_iff in Hall as [_ H2]. apply Z.ltb_lt in H2. apply Z.leb_le in Hc. lia.
  - intros s Hk Ha Hb. rewrite Hk. cbn [bind encode_ascii].
    rewrite Ha. cbn [bind].
    rewrite (b64decode_validate_bad s Hb). reflexivity.
Qed.

Lemma export_payload_errors_witness :
  AdminClient.export_server_configuration sample_admin
    (answer (json_response 200 (PDict [(PStr (lit "configurationFile"), PStr (lit "YW J="))])))
    sample_fs (fun _ => true) (lit "uuid") None
  = Err ValueError.
Proof.
  exact (proj2 (proj2 (proj2 (export_payload_errors sample_admin
    (json_response 200 (PDict [(PStr (lit "configurationFile"), PStr (lit "YW J="))]))
    sample_fs (fun _ => true) (lit "uuid") None
    [(PStr (lit "configurationFile"), PStr (lit "YW J="))]
    ltac:(reflexivity) ltac:(reflexivity))))
    (lit "YW J=") ltac:(reflexivity) ltac:(vm_compute; reflexivity)
    ltac:(vm_compute; reflexivity)).
Defined.

Lemma read_outcomes_status_body {A} (resp : response) (k : pyval -> result A) :
  read_outcomes (_ <- get_status_checks resp ;; resp_data <- _get_resp_data resp ;; k resp_data)
    resp.
Proof.
  unfold read_outcomes. split; [|split; [|split]].
  - intros H. unfold get_status_checks. rewrite H. reflexivity.
  - intros n Hn H503 Hs. unfold get_status_checks. rewrite Hn.
    replace (n =? 503) with false by (symmetry; apply Z.eqb_neq; exact H503).
    rewrite Hs. reflexivity.
  - intros h Hs Hh Hj. rewrite (status_checks_ok _ Hs). cbn [bind].
    unfold _get_resp_data, _get_content_type. rewrite Hh. cbn [bind]. rewrite Hj.
    reflexivity.
  - intros Hs Hh. rewrite (status_checks_ok _ Hs). cbn [bind].
    unfold _get_resp_data, _get_content_type. rewrite Hh. reflexivity.
Qed.

Lemma bind_ok_r {A} (m : result A) : (x <- m ;; Ok x) = m.
Proof. destruct m; reflexivity. Qed.

Lemma read_outcomes_status (resp : response) :
  read_outcomes (_ <- get_status_checks resp ;; _get_resp_data resp) resp.
Proof.
  pose proof (read_outcomes_status_body resp (@Ok pyval)) as H.
  unfold bind at 2 in H. 
  replace (fun _ : unit => match _get_resp_data resp with Ok a => Ok a | Err e => Err e end)
    with (fun _ : unit => _get_resp_data resp) in H; [exact H|].
  destruct (_get_resp_data resp); reflexivity.
Qed.

Ltac read_op :=
  repeat match goal with
         | |- context [AdminClient.get ?s ?u] =>
             let r := fresh "r" in let H := fresh "Hr" in
             destruct (admin_get_ok s u) as [r H]; rewrite H
         | |- context [ArchiveClient.get ?s ?u] =>
             let r := fresh "r" in let H := fresh "Hr" in
             destruct (archive_get_ok s u) as [r H]; rewrite H
         end;
  cbn [bind]; unfold answer;
  first [apply read_outcomes_status | apply read_outcomes_status_body].

(** X6. The GET operations [get_cluster_status], [list_all_channels],
    [list_channels_for_server], [get_channel], [export_server_configuration]
    (admin client), [find_channels_by_pattern] and [get_samples] (archive
    client) react to a failing response the same way ([get_server_status]
    lacks the 503 case and [find_channels_by_regexp] never sends its
    request, so both are left out): 503 gives the
    service-unavailable exception, any other non-2xx code [n] the
    request-failed exception with [n], a 2xx response with a content type
    other than [application/json] the content-type exception, and a 2xx
    response without content type an [AttributeError]. *)
Theorem read_operations_triage :
  (forall self resp,
      read_outcomes (AdminClient.get_cluster_status self (answer resp)) resp)
  /\ (forall self resp,
      read_outcomes (AdminClient.list_all_channels self (answer resp)) resp)
  /\ (forall self resp server_id,
      read_outcomes (AdminClient.list_channels_for_server self (answer resp) server_id) resp)
  /\ (forall self resp channel_name encoded server_id,
      _encode_uri_part_custom channel_name = Ok encoded ->
      read_outcomes (AdminClient.get_channel self (answer resp) channel_name server_id) resp)
  /\ (forall self resp fs writable server_id configuration_file,
      read_outcomes (AdminClient.export_server_configuration self (answer resp) fs writable
                       server_id configuration_file) resp)
  /\ (forall self resp pattern quoted,
      quote pattern = Ok quoted ->
      read_outcomes (ArchiveClient.find_channels_by_pattern self (answer resp) pattern) resp)
  /\ (forall self resp channel_name start_time end_time count quoted,
      quote channel_name = Ok quoted ->
      read_outcomes (ArchiveClient.get_samples self (answer resp) channel_name start_time
                       end_time count) resp).
Proof.
  split; [|split; [|split; [|split; [|split; [|split]]]]].
  - intros. unfold AdminClient.get_cluster_status. read_op.
  - intros. unfold AdminClient.list_all_channels. read_op.
  - intros. unfold AdminClient.list_channels_for_server. read_op.
  - intros self resp channel_name encoded server_id He.
    unfold AdminClient.get_channel. rewrite He. cbn [bind]. read_op.
  - intros. unfold AdminClient.export_server_configuration. read_op.
  - intros self resp pattern quoted Hq.
    unfold ArchiveClient.find_channels_by_pattern. rewrite Hq. cbn [bind]. read_op.
  - intros self resp channel_name start_time end_time count quoted Hq.
    unfold ArchiveClient.get_samples, ArchiveClient.get_samples_url.
    rewrite Hq. cbn [bind]. read_op.
Qed.

Lemma read_operations_triage_witness :
  AdminClient.get_channel sample_admin
    (answer {| resp_code := 200; resp_content_type := Some (lit "text/html;charset=UTF-8");
               resp_body := None |}) (lit "ch 1") None
  = Err (PyException (PStr (lit "Expected content-type application/json, but got text/html.")))
  /\ ArchiveClient.get_samples sample_archive
    (answer {| resp_code := 503; resp_content_type := None; resp_body := None |})
    (lit "ch1") 1000 2000 None
  = Err service_unavailable.
Proof.
  split.
  - exact (proj1 (proj2 (proj2 (proj1 (proj2 (proj2 (proj2 read_operations_triage)))
      sample_admin {| resp_code := 200; resp_content_type := Some (lit "text/html;charset=UTF-8");
                      resp_body := None |} (lit "ch 1") (lit "ch~201") None
      ltac:(reflexivity))))
      (lit "text/html;charset=UTF-8") ltac:(reflexivity) ltac:(reflexivity) ltac:(reflexivity)).
  - exact (proj1 (proj2 (proj2 (proj2 (proj2 (proj2 (proj2 read_operations_triage)))))
      sample_archive {| resp_code := 503; resp_content_type := None; resp_body := None |}
      (lit "ch1") 1000 2000 None (lit "ch1") ltac:(reflexivity)) ltac:(reflexivity)).
Defined.

Lemma list_channels_body self resp server_id v :
  _is_success_code (resp_code resp) = true ->
  _get_resp_data resp = Ok v ->
  AdminClient.list_all_channels self (answer resp) = py_getitem_str v (lit "channels")
  /\ AdminClient.list_channels_for_server self (answer resp) server_id
     = py_getitem_str v (lit "channels").
Proof.
  intros Hs Hd.
  unfold AdminClient.list_all_channels, AdminClient.list_channels_for_server.
  destruct (admin_get_ok self (lit "/channels/all/")) as [r1 H1]. rewrite H1.
  destruct (admin_get_ok self (py_format (lit "/channels/by-server/{0}/") [server_id]))
    as [r2 H2]. rewrite H2.
  cbn [bind]. unfold answer. rewrite (status_checks_ok _ Hs). cbn [bind]. rewrite Hd.
  split; reflexivity.
Qed.

(** X7. For a success code, [list_all_channels] and
    [list_channels_for_server] return the value under [channels] of the
    response dict, raise [KeyError] when the key is missing, and raise
    [TypeError] when the response body is a list. *)
Theorem list_channels_results :
  forall self resp server_id,
    _is_success_code (resp_code resp) = true ->
    (forall kvs channels,
        _get_resp_data resp = Ok (PDict kvs) ->
        dict_get kvs (lit "channels") = Some channels ->
        AdminClient.list_all_channels self (answer resp) = Ok channels
        /\ AdminClient.list_channels_for_server self (answer resp) server_id = Ok channels)
    /\ (forall kvs,
        _get_resp_data resp = Ok (PDict kvs) ->
        dict_get kvs (lit "channels") = None ->
        AdminClient.list_all_channels self (answer resp) = Err KeyError
        /\ AdminClient.list_channels_for_server self (answer resp) server_id = Err KeyError)
    /\ (forall l,
        _get_resp_data resp = Ok (PList l) ->
        AdminClient.list_all_channels self (answer resp) = Err TypeError
        /\ AdminClient.list_channels_for_server self (answer resp) server_id = Err TypeError).
Proof.
  intros self resp server_id Hs. split; [|split].
  - intros kvs channels Hd Hk. rewrite !(proj1 (list_channels_body self resp server_id _ Hs Hd)),
      (proj2 (list_channels_body self resp server_id _ Hs Hd)).
    cbn [py_getitem_str]. rewrite Hk. split; reflexivity.
  - intros kvs Hd Hk. rewrite (proj1 (list_channels_body self resp server_id _ Hs Hd)),
      (proj2 (list_channels_body self resp server_id _ Hs Hd)).
    cbn [py_getitem_str]. rewrite Hk. split; reflexivity.
  - intros l Hd. rewrite (proj1 (list_channels_body self resp server_id _ Hs Hd)),
      (proj2 (list_channels_body self resp server_id _ Hs Hd)).
    split; reflexivity.
Qed.

Lemma list_channels_results_witness :
  AdminClient.list_all_channels sample_admin
    (answer (json_response 200 (PDict [(PStr (lit "channels"), PList [])])))
  = Ok (PList [])
  /\ AdminClient.list_channels_for_server sample_admin
    (answer (json_response 200 (PDict [(PStr (lit "channels"), PList [])]))) (lit "uuid")
  = Ok (PList []).
Proof.
  exact (proj1 (list_channels_results sample_admin
    (json_response 200 (PDict [(PStr (lit "channels"), PList [])])) (lit "uuid")
    ltac:(reflexivity)) [(PStr (lit "channels"), PList [])] (PList [])
    ltac:(reflexivity) ltac:(reflexivity)).
Defined.

Lemma post_response_data_clean (resp : response) kvs :
  (_is_success_code (resp_code resp) = true \/ resp_code resp = 500) ->
  _get_resp_data resp = Ok (PDict kvs) ->
  (dict_get kvs (lit "errorMessage") = None \/ dict_get kvs (lit "errorMessage") = Some PNone) ->
  post_response_data resp = Ok (PDict kvs).
Proof.
  intros Hcode Hdata Hget.
  assert (Hparse : (resp_data <- _get_resp_data resp ;;
                    has_error <- py_contains (lit "errorMessage") resp_data ;;
                    if has_error then
                      error_message <- py_getitem_str resp_data (lit "errorMessage") ;;
                      match error_message with
                      | PNone => Ok resp_data
                      | _ => Err (PyException error_message)
                      end
                    else Ok resp_data) = Ok (PDict kvs)).
  { rewrite Hdata. unfold bind, py_contains, py_getitem_str.
    destruct Hget as [Hg|Hg]; rewrite Hg; reflexivity. }
  unfold post_response_data. destruct Hcode as [Hs|H500].
  - pose proof (success_code_range _ Hs) as Hr.
    replace (resp_code resp =? 403) with false by (symmetry; apply Z.eqb_neq; lia).
    replace (resp_code resp =? 400) with false by (symmetry; apply Z.eqb_neq; lia).
    replace (resp_code resp =? 500) with false by (symmetry; apply Z.eqb_neq; lia).
    replace (resp_code resp =? 503) with false by (symmetry; apply Z.eqb_neq; lia).
    rewrite Hs. exact Hparse.
  - rewrite H500. exact Hparse.
Qed.

Lemma run_req_ok self commands :
  json_dumps_ok commands = true ->
  exists req, AdminClient.run_archive_configuration_commands_req self commands = Ok req.
Proof.
  intros H. unfold AdminClient.run_archive_configuration_commands_req, _req.
  cbn [json_dumps_ok]. rewrite H. eexists. reflexivity.
Qed.

(** X8. When the POST response of [import_server_configuration] or
    [run_archive_configuration_commands] has a 2xx or 500 code and a dict
    body whose [errorMessage] is absent or [null], [import] returns the whole
    dict and [run] returns the value under [results], raising [KeyError]
    when [results] is missing. *)
Theorem post_success_results :
  (forall self fs send sid cf a r u s req kvs,
      AdminClient.import_server_configuration_req self fs sid cf a r u s = Ok req ->
      (_is_success_code (resp_code (send req)) = true \/ resp_code (send req) = 500) ->
      _get_resp_data (send req) = Ok (PDict kvs) ->
      (dict_get kvs (lit "errorMessage") = None
       \/ dict_get kvs (lit "errorMessage") = Some PNone) ->
      AdminClient.import_server_configuration self fs send sid cf a r u s = Ok (PDict kvs))
  /\ (forall self send commands req kvs,
      AdminClient.run_archive_configuration_commands_req self commands = Ok req ->
      (_is_success_code (resp_code (send req)) = true \/ resp_code (send req) = 500) ->
      _get_resp_data (send req) = Ok (PDict kvs) ->
      (dict_get kvs (lit "errorMessage") = None
       \/ dict_get kvs (lit "errorMessage") = Some PNone) ->
      (forall results, dict_get kvs (lit "results") = Some results ->
       AdminClient.run_archive_configuration_commands self send commands = Ok results)
      /\ (dict_get kvs (lit "results") = None ->
          AdminClient.run_archive_configuration_commands self send commands = Err KeyError)).
Proof.
  split.
  - intros self fs send sid cf a r u s req kvs Hreq Hc Hd He.
    rewrite (import_server_configuration_send _ _ _ _ _ _ _ _ _ _ Hreq).
    apply post_response_data_clean; assumption.
  - intros self send commands req kvs Hreq Hc Hd He.
    rewrite (run_archive_configuration_commands_send _ _ _ _ Hreq).
    rewrite (post_response_data_clean _ _ Hc Hd He). cbn [bind py_getitem_str].
    split; [intros results Hr; rewrite Hr; reflexivity|intros Hr; rewrite Hr; reflexivity].
Qed.

Lemma post_success_results_witness :
  AdminClient.run_archive_configuration_commands sample_admin
    (answer (json_response 500 (PDict [(PStr (lit "errorMessage"), PNone);
                                       (PStr (lit "results"), PList [PInt 1])])))
    (PList [])
  = Ok (PList [PInt 1]).
Proof.
  destruct (run_req_ok sample_admin (PList []) eq_refl) as [req Hreq].
  exact (proj1 (proj2 post_success_results sample_admin
    (answer (json_response 500 (PDict [(PStr (lit "errorMessage"), PNone);
                                       (PStr (lit "results"), PList [PInt 1])])))
    (PList []) req
    [(PStr (lit "errorMessage"), PNone); (PStr (lit "results"), PList [PInt 1])]
    Hreq (or_intror eq_refl) eq_refl (or_intror eq_refl)) (PList [PInt 1]) eq_refl).
Defined.

(** X9. A 400 response whose [errorMessage] is present but falsy (such as
    the empty string) makes both POST operations raise the generic
    malformed-request exception instead of the message. *)
Theorem bad_request_falsy_message :
  (forall self fs send sid cf a r u s req kvs m,
      AdminClient.import_server_configuration_req self fs sid cf a r u s = Ok req ->
      resp_code (send req) = 400 ->
      _get_resp_data (send req) = Ok (PDict kvs) ->
      dict_get kvs (lit "errorMessage") = Some m -> py_truthy m = false ->
      AdminClient.import_server_configuration self fs send sid cf a r u s
      = Err (PyException malformed_request_message))
  /\ (forall self send commands req kvs m,
      AdminClient.run_archive_configuration_commands_req self commands = Ok req ->
      resp_code (send req) = 400 ->
      _get_resp_data (send req) = Ok (PDict kvs) ->
      dict_get kvs (lit "errorMessage") = Some m -> py_truthy m = false ->
      AdminClient.run_archive_configuration_commands self send commands
      = Err (PyException malformed_request_message)).
Proof.
  assert (P : forall resp kvs m,
             resp_code resp = 400 -> _get_resp_data resp = Ok (PDict kvs) ->
             dict_get kvs (lit "errorMessage") = Some m -> py_truthy m = false ->
             post_response_data resp = Err (PyException malformed_request_message)).
  { intros resp kvs m Hc Hd Hg Ht. unfold post_response_data. rewrite Hc.
    cbn [Z.eqb Pos.eqb]. rewrite Hd. unfold bind, py_contains, py_getitem_str.
    rewrite Hg, Ht. reflexivity. }
  split.
  - intros self fs send sid cf a r u s req kvs m Hreq Hc Hd Hg Ht.
    rewrite (import_server_configuration_send _ _ _ _ _ _ _ _ _ _ Hreq).
    eapply P; eassumption.
  - intros self send commands req kvs m Hreq Hc Hd Hg Ht.
    rewrite (run_archive_configuration_commands_send _ _ _ _ Hreq).
    rewrite (P _ _ _ Hc Hd Hg Ht). reflexivity.
Qed.

Lemma bad_request_falsy_message_witness :
  AdminClient.run_archive_configuration_commands sample_admin
    (answer (json_response 400 (PDict [(PStr (lit "errorMessage"), PStr [])])))
    (PList [])
  = Err (PyException malformed_request_message).
Proof.
  destruct (run_req_ok sample_admin (PList []) eq_refl) as [req Hreq].
  exact (proj2 bad_request_falsy_message sample_admin
    (answer (json_response 400 (PDict [(PStr (lit "errorMessage"), PStr [])])))
    (PList []) req [(PStr (lit "errorMessage"), PStr [])] (PStr [])
    Hreq eq_refl eq_refl eq_refl eq_refl).
Defined.

Lemma json_dumps_ok_dict kvs :
  json_dumps_ok (PDict kvs)
  = forallb (fun kv => match fst kv with
                       | PNone | PBool _ | PInt _ | PStr _ => json_dumps_ok (snd kv)
                       | _ => false
                       end) kvs.
Proof.
  induction kvs as [|[k x] t IH]; [reflexivity|].
  cbn [json_dumps_ok forallb fst snd] in *. rewrite <- IH.
  destruct k; reflexivity.
Qed.

Lemma json_dumps_ok_list l : json_dumps_ok (PList l) = forallb json_dumps_ok l.
Proof.
  induction l as [|x t IH]; [reflexivity|].
  cbn [json_dumps_ok forallb] in *. rewrite <- IH. reflexivity.
Qed.

Lemma make_str_json v : json_dumps_ok (ArchiveConfigurationCommands._make_str v) = true.
Proof. destruct v; reflexivity. Qed.

Lemma make_str_list_json v p :
  ArchiveConfigurationCommands._make_str_list v = Ok p -> json_dumps_ok p = true.
Proof.
  unfold ArchiveConfigurationCommands._make_str_list.
  assert (Hl : forall l, json_dumps_ok (PList (map (fun elem => PStr (py_str elem)) l)) = true).
  { intros l. rewrite json_dumps_ok_list. induction l; [reflexivity|]. exact IHl. }
  destruct v; cbn [py_iter bind]; intros H; apply ok_inj in H || discriminate H;
    subst p; first [reflexivity | apply Hl].
Qed.

Lemma make_str_dict_json v p :
  ArchiveConfigurationCommands._make_str_dict v = Ok p -> json_dumps_ok p = true.
Proof. destruct v; cbn; intros H; apply ok_inj in H || discriminate H; subst p; reflexivity. Qed.

Ltac run_binds_eq H :=
  unfold bind in H;
  repeat match type of H with
         | context [match ?m with Ok _ => _ | Err _ => _ end] =>
             let E := fresh "E" in destruct m eqn:E; [|discriminate H]
         end.

Lemma run_call_json self c self' :
  ArchiveConfigurationCommands.run_call self c = Ok self' ->
  exists command, self' = self ++ [command] /\ json_dumps_ok command = true.
Proof.
  intros H.
  destruct c; cbn [ArchiveConfigurationCommands.run_call] in H;
    unfold ArchiveConfigurationCommands.add_channel,
      ArchiveConfigurationCommands.add_or_update_channel,
      ArchiveConfigurationCommands.move_channel,
      ArchiveConfigurationCommands.refresh_channel,
      ArchiveConfigurationCommands.remove_channel,
      ArchiveConfigurationCommands.rename_channel,
      ArchiveConfigurationCommands.update_channel in H;
    run_binds_eq H; apply ok_inj in H; subst self';
    eexists; (split; [reflexivity|]);
    rewrite json_dumps_ok_dict; cbn [forallb fst snd ArchiveConfigurationCommands.key];
    rewrite ?make_str_json;
    repeat match goal with
           | E : ArchiveConfigurationCommands._make_str_list _ = Ok _ |- _ =>
               rewrite (make_str_list_json _ _ E); clear E
           | E : ArchiveConfigurationCommands._make_str_dict _ = Ok _ |- _ =>
               rewrite (make_str_dict_json _ _ E); clear E
           end;
    try match goal with |- context [match ?e with PNone => PNone | _ => _ end] => destruct e end;
    reflexivity.
Qed.

(** X10. Successive builder calls on one [ArchiveConfigurationCommands]
    batch keep the commands already there and append exactly one
    JSON-serialisable command per call; a batch built from an empty one is
    therefore always accepted by [run_archive_configuration_commands],
    which POSTs it as [{"commands": batch}]. *)
Theorem builder_batch_run_request :
  (forall self cs batch,
      ArchiveConfigurationCommands.run_calls self cs = Ok batch ->
      length batch = (length self + length cs)%nat
      /\ firstn (length self) batch = self
      /\ Forall (fun command => json_dumps_ok command = true) (skipn (length self) batch))
  /\ (forall admin cs batch,
      ArchiveConfigurationCommands.run_calls [] cs = Ok batch ->
      exists req,
        AdminClient.run_archive_configuration_commands_req admin (PList batch) = Ok req
        /\ req_data req = Some (PDict [(PStr (lit "commands"), PList batch)])
        /\ req_method req = lit "POST").
Proof.
  assert (P : forall cs self batch,
             ArchiveConfigurationCommands.run_calls self cs = Ok batch ->
             length batch = (length self + length cs)%nat
             /\ firstn (length self) batch = self
             /\ Forall (fun command => json_dumps_ok command = true) (skipn (length self) batch)).
  { induction cs as [|c t IH]; intros self batch H.
    - cbn in H. apply ok_inj in H. subst batch.
      rewrite firstn_all, skipn_all. split; [simpl; lia|]. split; [reflexivity|constructor].
    - cbn [ArchiveConfigurationCommands.run_calls] in H.
      destruct (ArchiveConfigurationCommands.run_call self c) as [self1|e] eqn:E1;
        [|discriminate]. cbn [bind] in H.
      destruct (run_call_json _ _ _ E1) as [command [-> Hj]].
      destruct (IH _ _ H) as [Hlen [Hpre Hall]].
      pose proof (firstn_skipn (length (self ++ [command])) batch) as Hb.
      rewrite Hpre in Hb.
      set (R := skipn (length (self ++ [command])) batch) in Hall, Hb.
      clearbody R. subst batch.
      rewrite <- app_assoc. cbn [app].
      rewrite length_app in *. cbn [length] in *. split; [lia|]. split.
      + rewrite firstn_app, Nat.sub_diag, firstn_all. simpl. apply app_nil_r.
      + rewrite skipn_app, Nat.sub_diag, skipn_all. simpl. constructor; assumption. }
  split; [intros self cs batch H; exact (P cs self batch H)|].
  intros admin cs batch H. destruct (P cs [] batch H) as [_ [_ Hall]].
  cbn [length skipn] in Hall.
  assert (Hj : json_dumps_ok (PList batch) = true).
  { rewrite json_dumps_ok_list. apply forallb_forall. intros x Hx.
    rewrite Forall_forall in Hall. exact (Hall x Hx). }
  unfold AdminClient.run_archive_configuration_commands_req, _req.
  rewrite json_dumps_ok_dict. cbn [forallb fst snd]. rewrite Hj.
  eexists. split; [reflexivity|split; reflexivity].
Qed.

Lemma builder_batch_run_request_witness :
  exists batch,
    ArchiveConfigurationCommands.run_calls []
      [ArchiveConfigurationCommands.RefreshChannel (PStr (lit "ch")) (PInt 7);
       ArchiveConfigurationCommands.RemoveChannel (PStr (lit "old")) PNone] = Ok batch
    /\ length batch = 2%nat
    /\ exists req,
         AdminClient.run_archive_configuration_commands_req sample_admin (PList batch) = Ok req
         /\ req_data req = Some (PDict [(PStr (lit "commands"), PList batch)]).
Proof.
  eexists. split; [reflexivity|].
  destruct builder_batch_run_request as [P1 P2].
  match goal with
  | |- _ /\ exists req, AdminClient.run_archive_configuration_commands_req _ (PList ?b) = _ /\ _ =>
      assert (Hc : ArchiveConfigurationCommands.run_calls []
        [ArchiveConfigurationCommands.RefreshChannel (PStr (lit "ch")) (PInt 7);
         ArchiveConfigurationCommands.RemoveChannel (PStr (lit "old")) PNone] = Ok b)
        by reflexivity
  end.
  split; [exact (proj1 (P1 [] _ _ Hc))|].
  destruct (P2 sample_admin _ _ Hc) as [req [Hreq [Hd _]]].
  exists req. split; assumption.
Defined.

(** X11. The GET requests of both clients carry no body and no
    [Authorization] header; the POST requests of [run_archive_configuration_commands]
    and [import_server_configuration] carry the client's authorization
    header and the JSON content type; commands that [json.dumps] refuses
    make [run_archive_configuration_commands] raise [TypeError] before any
    request is sent. *)
Theorem request_credentials_policy :
  (forall self url r,
      AdminClient.get self url = Ok r ->
      req_method r = lit "GET" /\ req_data r = None
      /\ ~ In (lit "Authorization") (map fst (req_headers r)))
  /\ (forall self url r,
      ArchiveClient.get self url = Ok r ->
      req_method r = lit "GET" /\ req_data r = None
      /\ ~ In (lit "Authorization") (map fst (req_headers r)))
  /\ (forall self commands r,
      AdminClient.run_archive_configuration_commands_req self commands = Ok r ->
      req_method r = lit "POST"
      /\ In (lit "Authorization", AdminClient._auth_header self) (req_headers r)
      /\ In (lit "Content-Type", lit "application/json;charset=UTF-8") (req_headers r))
  /\ (forall self fs sid cf a rm u s r,
      AdminClient.import_server_configuration_req self fs sid cf a rm u s = Ok r ->
      req_method r = lit "POST"
      /\ In (lit "Authorization", AdminClient._auth_header self) (req_headers r)
      /\ In (lit "Content-Type", lit "application/json;charset=UTF-8") (req_headers r))
  /\ (forall self commands,
      json_dumps_ok commands = false ->
      AdminClient.run_archive_configuration_commands_req self commands = Err TypeError).
Proof.
  split; [|split; [|split; [|split]]].
  - intros self url r H. unfold AdminClient.get, _req in H. cbn [bind] in H.
    apply ok_inj in H. subst r. cbn.
    split; [reflexivity|split; [reflexivity|]].
    intros [E|[E|[]]]; discriminate E.
  - intros self url r H. unfold ArchiveClient.get, _req in H. cbn [bind] in H.
    apply ok_inj in H. subst r. cbn.
    split; [reflexivity|split; [reflexivity|]].
    intros [E|[E|[]]]; discriminate E.
  - intros self commands r H.
    unfold AdminClient.run_archive_configuration_commands_req, _req in H.
    rewrite json_dumps_ok_dict in H. cbn [forallb fst snd] in H.
    destruct (json_dumps_ok commands); cbn in H; [|discriminate H].
    apply ok_inj in H. subst r. cbn.
    split; [reflexivity|split].
    + right; right; left; reflexivity.
    + right; right; right; left; reflexivity.
  - intros self fs sid cf a rm u s r H.
    unfold AdminClient.import_server_configuration_req in H.
    run_binds_eq H. unfold _req in H.
    rewrite json_dumps_ok_dict in H. cbn [forallb fst snd json_dumps_ok andb bind] in H.
    apply ok_inj in H. subst r. cbn [req_method req_headers app].
    split; [reflexivity|split].
    + right; right; left; reflexivity.
    + right; right; right; left; reflexivity.
  - intros self commands H.
    unfold AdminClient.run_archive_configuration_commands_req, _req.
    rewrite json_dumps_ok_dict. cbn [forallb fst snd]. rewrite H. reflexivity.
Qed.

Lemma request_credentials_policy_witness :
  AdminClient.run_archive_configuration_commands_req sample_admin
    (PList [PDict [(PList [], PNone)]]) = Err TypeError
  /\ exists r, AdminClient.run_archive_configuration_commands_req sample_admin (PList []) = Ok r
     /\ In (lit "Authorization", AdminClient._auth_header sample_admin) (req_headers r).
Proof.
  destruct request_credentials_policy as [_ [_ [P3 [_ P5]]]].
  split; [exact (P5 sample_admin (PList [PDict [(PList [], PNone)]]) eq_refl)|].
  destruct (run_req_ok sample_admin (PList []) eq_refl) as [r Hr].
  exists r. split; [exact Hr|exact (proj1 (proj2 (P3 _ _ _ Hr)))].
Defined.

Lemma utf8_encode_cp_prefix (a b : Z) (x y r1 r2 : pybytes) :
  utf8_encode_cp a = Ok x -> utf8_encode_cp b = Ok y -> x ++ r1 = y ++ r2 ->
  a = b /\ r1 = r2.
Proof.
  unfold utf8_encode_cp. intros Ha Hb He.
  destruct (a <? 0) eqn:A1; [discriminate|].
  destruct (a <? 128) eqn:A2;
    [|destruct (a <? 2048) eqn:A3;
      [|destruct ((55296 <=? a) && (a <=? 57343)); [discriminate|];
        destruct (a <? 65536) eqn:A5;
        [|destruct (a <? 1114112) eqn:A6; [|discriminate]]]];
  (destruct (b <? 0) eqn:B1; [discriminate|]);
  (destruct (b <? 128) eqn:B2;
    [|destruct (b <? 2048) eqn:B3;
      [|destruct ((55296 <=? b) && (b <=? 57343)); [discriminate|];
        destruct (b <? 65536) eqn:B5;
        [|destruct (b <? 1114112) eqn:B6; [|discriminate]]]]);
  apply ok_inj in Ha, Hb; subst x y; cbn [app] in He;
  repeat match goal with
         | H : _ :: _ = _ :: _ |- _ => apply cons_eq_inv in H as [? H]
         end;
  rewrite ?Z.ltb_lt, ?Z.ltb_ge in *;
  first [ exfalso; Z.div_mod_to_equations; lia
        | split; [Z.div_mod_to_equations; lia | assumption] ].
Qed.

Lemma utf8_encode_cp_nonempty (a : Z) (x : pybytes) : utf8_encode_cp a = Ok x -> x <> [].
Proof.
  unfold utf8_encode_cp. intros H.
  destruct (a <? 0); [discriminate|].
  destruct (a <? 128); [apply ok_inj in H; subst; discriminate|].
  destruct (a <? 2048); [apply ok_inj in H; subst; discriminate|].
  destruct ((55296 <=? a) && (a <=? 57343)); [discriminate|].
  destruct (a <? 65536); [apply ok_inj in H; subst; discriminate|].
  destruct (a <? 1114112); [apply ok_inj in H; subst; discriminate|discriminate].
Qed.

Lemma mapM_cons_ok {A B} (f : A -> result B) x t l :
  mapM f (x :: t) = Ok l -> exists y ys, f x = Ok y /\ mapM f t = Ok ys /\ l = y :: ys.
Proof.
  cbn [mapM]. destruct (f x) as [y|e]; cbn [bind]; [|discriminate].
  destruct (mapM f t) as [ys|e]; cbn [bind]; [|discriminate].
  intros H. apply ok_inj in H. subst l. eauto.
Qed.

Lemma utf8_encode_inj (s1 s2 : pystr) (bs : pybytes) :
  utf8_encode s1 = Ok bs -> utf8_encode s2 = Ok bs -> s1 = s2.
Proof.
  unfold utf8_encode.
  destruct (mapM utf8_encode_cp s1) as [bss1|e] eqn:E1; cbn [bind]; [|discriminate].
  destruct (mapM utf8_encode_cp s2) as [bss2|e] eqn:E2; cbn [bind]; [|discriminate].
  intros H1 H2. apply ok_inj in H1, H2. rewrite <- H2 in H1. clear H2 bs.
  revert s2 bss1 bss2 E1 E2 H1.
  induction s1 as [|a t IH]; intros [|b t2] bss1 bss2 E1 E2 H.
  - reflexivity.
  - cbn in E1. apply ok_inj in E1. subst bss1.
    destruct (mapM_cons_ok _ _ _ _ E2) as [y [ys [Ey [_ ->]]]].
    apply utf8_encode_cp_nonempty in Ey. destruct y; [congruence|discriminate].
  - cbn in E2. apply ok_inj in E2. subst bss2.
    destruct (mapM_cons_ok _ _ _ _ E1) as [y [ys [Ey [_ ->]]]].
    apply utf8_encode_cp_nonempty in Ey. destruct y; [congruence|discriminate].
  - destruct (mapM_cons_ok _ _ _ _ E1) as [x [xs [Ex [Exs ->]]]].
    destruct (mapM_cons_ok _ _ _ _ E2) as [y [ys [Ey [Eys ->]]]].
    cbn [concat] in H.
    destruct (utf8_encode_cp_prefix _ _ _ _ _ _ Ex Ey H) as [-> Hr].
    f_equal. exact (IH _ _ _ Exs Eys Hr).
Qed.

Lemma hex_ascii_inj (n m : Z) :
  0 <= n < 16 -> 0 <= m < 16 -> hex_ascii n = hex_ascii m -> n = m.
Proof.
  unfold hex_ascii. intros Hn Hm.
  destruct (n <? 10) eqn:N; destruct (m <? 10) eqn:M;
    rewrite ?Z.ltb_lt, ?Z.ltb_ge in *; lia.
Qed.

Lemma plain_byte_not_tilde (b : Z) : is_plain_byte b = true -> b <> 126.
Proof.
  unfold is_plain_byte. intros H.
  repeat rewrite ?orb_true_iff, ?andb_true_iff, ?Z.eqb_eq, ?Z.leb_le in H. lia.
Qed.

Lemma always_safe_not_percent (b : Z) : always_safe b = true -> b <> 37.
Proof.
  unfold always_safe. intros H.
  repeat rewrite ?orb_true_iff, ?andb_true_iff, ?Z.eqb_eq, ?Z.leb_le in H. lia.
Qed.

(** Both escapes write a byte outside their safe set as a marker followed
    by two hex digits; such a three-character code and a kept byte never
    share a first character, so the escaped text determines the bytes. *)
Section EscapeInjective.

Variable safe : Z -> bool.
Variable marker : Z.
Hypothesis safe_not_marker : forall b, safe b = true -> b <> marker.

Definition escape_byte (b : Z) : list Z :=
  if safe b then [b] else [marker; hex_ascii (b / 16); hex_ascii (b mod 16)].

Lemma escape_byte_prefix (b1 b2 : Z) (r1 r2 : list Z) :
  byte_range b1 -> byte_range b2 ->
  escape_byte b1 ++ r1 = escape_byte b2 ++ r2 -> b1 = b2 /\ r1 = r2.
Proof.
  unfold escape_byte, byte_range. intros H1 H2 H.
  destruct (safe b1) eqn:S1; destruct (safe b2) eqn:S2; cbn [app] in H;
    apply cons_eq_inv in H as [Hh H].
  - auto.
  - exfalso. exact (safe_not_marker _ S1 Hh).
  - exfalso. exact (safe_not_marker _ S2 (eq_sym Hh)).
  - apply cons_eq_inv in H as [Hhi H]. apply cons_eq_inv in H as [Hlo H].
    apply hex_ascii_inj in Hhi;
      [|split; [apply Z.div_pos|apply Z.div_lt_upper_bound]; lia
       |split; [apply Z.div_pos|apply Z.div_lt_upper_bound]; lia].
    apply hex_ascii_inj in Hlo;
      [|apply Z.mod_pos_bound; lia|apply Z.mod_pos_bound; lia].
    split; [|exact H].
    rewrite (Z.div_mod b1 16), (Z.div_mod b2 16) by lia. lia.
Qed.

Lemma flat_map_escape_inj (l1 l2 : list Z) :
  Forall byte_range l1 -> Forall byte_range l2 ->
  flat_map escape_byte l1 = flat_map escape_byte l2 -> l1 = l2.
Proof.
  intros H1. revert l2. induction H1 as [|b1 t1 Hb1 _ IH]; intros l2 H2 H.
  - destruct H2 as [|b2 t2]; [reflexivity|].
    cbn [flat_map] in H. unfold escape_byte in H.
    destruct (safe b2); discriminate H.
  - destruct H2 as [|b2 t2 Hb2 Ht2].
    + cbn [flat_map] in H. unfold escape_byte in H.
      destruct (safe b1); discriminate H.
    + cbn [flat_map] in H.
      destruct (escape_byte_prefix _ _ _ _ Hb1 Hb2 H) as [-> Ht].
      f_equal. exact (IH _ Ht2 Ht).
Qed.

End EscapeInjective.

Lemma encode_uri_byte_escape (b : Z) : encode_uri_byte b = escape_byte is_plain_byte 126 b.
Proof. reflexivity. Qed.

Lemma quote_byte_escape (b : Z) : quote_byte b = escape_byte always_safe 37 b.
Proof. reflexivity. Qed.

Lemma flat_map_ext_eq {A B} (f g : A -> list B) (l : list A) :
  (forall x, f x = g x) -> flat_map f l = flat_map g l.
Proof. intros H. induction l as [|x t IH]; [reflexivity|]. cbn. rewrite H, IH. reflexivity. Qed.

Lemma encode_uri_byte_charset (b : Z) :
  byte_range b ->
  forallb (fun c => is_plain_byte c || (c =? 126)) (encode_uri_byte b) = true.
Proof.
  apply (all_bytes (fun b => forallb (fun c => is_plain_byte c || (c =? 126)) (encode_uri_byte b) = true)
           (fun b => forallb (fun c => is_plain_byte c || (c =? 126)) (encode_uri_byte b))).
  - auto.
  - vm_compute. reflexivity.
Qed.

Lemma quote_byte_charset (b : Z) :
  byte_range b ->
  forallb (fun c => always_safe c || (c =? 37)) (quote_byte b) = true.
Proof.
  apply (all_bytes (fun b => forallb (fun c => always_safe c || (c =? 37)) (quote_byte b) = true)
           (fun b => forallb (fun c => always_safe c || (c =? 37)) (quote_byte b))).
  - auto.
  - vm_compute. reflexivity.
Qed.

Lemma forallb_flat_map {A B} (p : B -> bool) (f : A -> list B) (l : list A) (P : A -> Prop) :
  Forall P l -> (forall x, P x -> forallb p (f x) = true) -> forallb p (flat_map f l) = true.
Proof.
  intros H Hf. induction H as [|x t Hx _ IH]; [reflexivity|].
  cbn [flat_map]. rewrite forallb_app, Hf, IH by assumption. reflexivity.
Qed.

(** X12. The two URL escapes only ever produce characters of their safe
    set: [_encode_uri_part_custom] letters, digits, [-], [_] and [~];
    [urllib.parse.quote(s, safe='')] [A-Za-z0-9_.-~] and [%], so neither
    emits [/], [?] or [#]. Both are injective: two names with the same
    escape are equal. [quote] leaves a string over its safe set
    unchanged. *)
Theorem uri_escapes_charset_injective :
  (forall s e, _encode_uri_part_custom s = Ok e ->
      forallb (fun c => is_plain_byte c || (c =? 126)) e = true)
  /\ (forall s1 s2 e, _encode_uri_part_custom s1 = Ok e ->
      _encode_uri_part_custom s2 = Ok e -> s1 = s2)
  /\ (forall s q, quote s = Ok q -> forallb (fun c => always_safe c || (c =? 37)) q = true)
  /\ (forall s1 s2 q, quote s1 = Ok q -> quote s2 = Ok q -> s1 = s2)
  /\ (forall s, forallb always_safe s = true -> quote s = Ok s).
Proof.
  assert (Hc : forall s e, _encode_uri_part_custom s = Ok e ->
             exists bs, utf8_encode s = Ok bs /\ Forall byte_range bs
                        /\ e = flat_map encode_uri_byte bs).
  { intros s e H. unfold _encode_uri_part_custom in H.
    destruct (utf8_encode s) as [bs|x] eqn:E; cbn [bind] in H; [|discriminate].
    pose proof (utf8_encode_range _ _ E) as Hr.
    rewrite ascii_decode_flat_map in H by exact Hr. apply ok_inj in H.
    exists bs. auto. }
  assert (Hq : forall s q, quote s = Ok q ->
             exists bs, utf8_encode s = Ok bs /\ Forall byte_range bs
                        /\ q = flat_map quote_byte bs).
  { intros s q H. unfold quote in H.
    destruct (utf8_encode s) as [bs|x] eqn:E; cbn [bind] in H; [|discriminate].
    apply ok_inj in H. exists bs. split; [reflexivity|].
    split; [exact (utf8_encode_range _ _ E)|auto]. }
  split; [|split; [|split; [|split]]].
  - intros s e H. destruct (Hc _ _ H) as [bs [_ [Hr ->]]].
    exact (forallb_flat_map _ _ _ _ Hr encode_uri_byte_charset).
  - intros s1 s2 e H1 H2.
    destruct (Hc _ _ H1) as [bs1 [E1 [R1 ->]]].
    destruct (Hc _ _ H2) as [bs2 [E2 [R2 Hb]]].
    rewrite (flat_map_ext_eq _ _ bs1 encode_uri_byte_escape), (flat_map_ext_eq _ _ bs2 encode_uri_byte_escape) in Hb.
    apply (flat_map_escape_inj _ _ plain_byte_not_tilde _ _ R1 R2) in Hb. subst bs2.
    exact (utf8_encode_inj _ _ _ E1 E2).
  - intros s q H. destruct (Hq _ _ H) as [bs [_ [Hr ->]]].
    exact (forallb_flat_map _ _ _ _ Hr quote_byte_charset).
  - intros s1 s2 q H1 H2.
    destruct (Hq _ _ H1) as [bs1 [E1 [R1 ->]]].
    destruct (Hq _ _ H2) as [bs2 [E2 [R2 Hb]]].
    rewrite (flat_map_ext_eq _ _ bs1 quote_byte_escape), (flat_map_ext_eq _ _ bs2 quote_byte_escape) in Hb.
    apply (flat_map_escape_inj _ _ always_safe_not_percent _ _ R1 R2) in Hb. subst bs2.
    exact (utf8_encode_inj _ _ _ E1 E2).
  - intros s H. unfold quote.
    assert (Ha : forallb (fun c => (0 <=? c) && (c <? 128)) s = true).
    { induction s as [|c t IH]; [reflexivity|]. cbn [forallb] in *.
      apply andb_true_iff in H as [Hc1 Ht]. rewrite IH by exact Ht.
      unfold always_safe in Hc1.
      repeat rewrite ?orb_true_iff, ?andb_true_iff, ?Z.eqb_eq, ?Z.leb_le in Hc1.
      replace ((0 <=? c) && (c <? 128)) with true; [reflexivity|].
      symmetry. apply andb_true_iff. rewrite Z.leb_le, Z.ltb_lt. lia. }
    rewrite (utf8_encode_ascii _ Ha). cbn [bind]. f_equal.
    induction s as [|c t IH]; [reflexivity|]. cbn [forallb] in H.
    apply andb_true_iff in H as [Hc1 Ht]. cbn [flat_map].
    unfold quote_byte at 1. rewrite Hc1. cbn [app]. f_equal.
    apply IH; [exact Ht|]. cbn [forallb] in Ha. apply andb_true_iff in Ha. apply Ha.
Qed.

Lemma py_split_semicolon_head (h : pystr) :
  exists ps, py_split 59 h = before_semicolon h :: ps.
Proof.
  induction h as [|c t [ps IH]]; [exists []; reflexivity|].
  cbn [py_split before_semicolon]. destruct (c =? 59).
  - eexists; reflexivity.
  - rewrite IH. eexists; reflexivity.
Qed.

Lemma py_split_app_sep (sep : Z) (a b : pystr) :
  ~ In sep a -> py_split sep (a ++ sep :: b) = a :: py_split sep b.
Proof.
  induction a as [|c t IH]; intros Hn.
  - cbn. rewrite Z.eqb_refl. reflexivity.
  - cbn [app py_split]. replace (c =? sep) with false.
    + rewrite IH by (intros H; apply Hn; right; exact H). reflexivity.
    + symmetry. apply Z.eqb_neq. intros ->. apply Hn. left; reflexivity.
Qed.

Lemma py_split_nosep (sep : Z) (a : pystr) : ~ In sep a -> py_split sep a = [a].
Proof.
  induction a as [|c t IH]; intros Hn; [reflexivity|].
  cbn [py_split]. replace (c =? sep) with false.
  - rewrite IH by (intros H; apply Hn; right; exact H). reflexivity.
  - symmetry. apply Z.eqb_neq. intros ->. apply Hn. left; reflexivity.
Qed.

(** X13. [_get_content_type_and_charset] returns as content type the part
    of the header before the first [;]. A header [ct;charset=v] gives the
    charset [v]; with a space after the [;] the parameter name is
    [" charset"] and the charset is [None]; a header without [;] gives the
    charset [None]. *)
Theorem content_type_charset_parsing :
  (forall resp,
      (p <- _get_content_type_and_charset resp ;; Ok (fst p)) = _get_content_type resp)
  /\ (forall resp ct v,
      resp_content_type resp = Some (ct ++ 59 :: lit "charset=" ++ v) ->
      ~ In 59 ct -> ~ In 59 v ->
      _get_content_type_and_charset resp = Ok (ct, Some v))
  /\ (forall resp ct v,
      resp_content_type resp = Some (ct ++ 59 :: lit " charset=" ++ v) ->
      ~ In 59 ct -> ~ In 59 v ->
      _get_content_type_and_charset resp = Ok (ct, None))
  /\ (forall resp ct,
      resp_content_type resp = Some ct -> ~ In 59 ct ->
      _get_content_type_and_charset resp = Ok (ct, None)).
Proof.
  split; [|split; [|split]].
  - intros resp. unfold _get_content_type_and_charset, _get_content_type.
    destruct (resp_content_type resp) as [h|]; [|reflexivity].
    destruct (py_split_semicolon_head h) as [ps E]. rewrite E. reflexivity.
  - intros resp ct v Hh Hct Hv. unfold _get_content_type_and_charset. rewrite Hh.
    rewrite py_split_app_sep by exact Hct.
    rewrite (py_split_nosep 59 (lit "charset=" ++ v)).
    + reflexivity.
    + intros H. apply in_app_or in H as [H|H]; [|exact (Hv H)].
      cbn in H. repeat destruct H as [H|H]; try discriminate H; exact H.
  - intros resp ct v Hh Hct Hv. unfold _get_content_type_and_charset. rewrite Hh.
    rewrite py_split_app_sep by exact Hct.
    rewrite (py_split_nosep 59 (lit " charset=" ++ v)).
    + reflexivity.
    + intros H. apply in_app_or in H as [H|H]; [|exact (Hv H)].
      cbn in H. repeat destruct H as [H|H]; try discriminate H; exact H.
  - intros resp ct Hh Hct. unfold _get_content_type_and_charset. rewrite Hh.
    rewrite py_split_nosep by exact Hct. reflexivity.
Qed.

Lemma uri_escapes_charset_injective_witness :
  _encode_uri_part_custom (lit "a b") = Ok (lit "a~20b")
  /\ forallb (fun c => is_plain_byte c || (c =? 126)) (lit "a~20b") = true
  /\ lit "a b" = lit "a b"
  /\ forallb (fun c => always_safe c || (c =? 37)) (lit "a%20b") = true
  /\ lit "a/b" = lit "a/b"
  /\ quote (lit "Ch_1.x~") = Ok (lit "Ch_1.x~").
Proof.
  destruct uri_escapes_charset_injective as [P1 [P2 [P3 [P4 P5]]]].
  split; [reflexivity|].
  split; [exact (P1 (lit "a b") (lit "a~20b") eq_refl)|].
  split; [exact (P2 (lit "a b") (lit "a b") (lit "a~20b") eq_refl eq_refl)|].
  split; [exact (P3 (lit "a b") (lit "a%20b") eq_refl)|].
  split; [exact (P4 (lit "a/b") (lit "a/b") (lit "a%2Fb") eq_refl eq_refl)|].
  apply P5. vm_compute. reflexivity.
Defined.

Lemma content_type_charset_parsing_witness :
  _get_content_type_and_charset
    {| resp_code := 200; resp_content_type := Some (lit "application/json;charset=UTF-8");
       resp_body := None |} = Ok (lit "application/json", Some (lit "UTF-8"))
  /\ _get_content_type_and_charset
    {| resp_code := 200; resp_content_type := Some (lit "application/json; charset=UTF-8");
       resp_body := None |} = Ok (lit "application/json", None)
  /\ _get_content_type_and_charset
    {| resp_code := 200; resp_content_type := Some (lit "text/plain");
       resp_body := None |} = Ok (lit "text/plain", None).
Proof.
  destruct content_type_charset_parsing as [_ [P2 [P3 P4]]].
  split; [|split].
  - apply (P2 _ (lit "application/json") (lit "UTF-8")); [reflexivity| |]; intros H; simpl in H; intuition discriminate.
  - apply (P3 _ (lit "application/json") (lit "UTF-8")); [reflexivity| |]; intros H; simpl in H; intuition discriminate.
  - apply P4; [reflexivity|]; intros H; simpl in H; intuition discriminate.
Defined.

